(** * News curation pipeline: fetch_articles.py and post_to_slack.py

    A shallow embedding of the aggregation, time-window and de-duplication
    stages of [fetch_articles.py] and of the posting stage of
    [post_to_slack.py], with the properties of the specification stated and
    proved (or refuted) on it.

    Conventions.
    - A Python [str] is a sequence of Unicode code points: [list N].  Literals
      of the source are written [py "..."], which decodes the UTF-8 bytes of
      the Rocq literal, so that [length] is Python's [len].
    - A Python exception is a value of [exn]; code that may raise returns a
      [result].
    - The upstream services (the topics API, the feed parser, the clock, the
      webhook) are parameters of the functions that call them. *)

From Stdlib Require Import ZArith String Ascii.
From stdpp Require Import gmap list.

Local Open Scope Z_scope.

(** ** Python strings *)

Abbreviation str := (list N).

Fixpoint bytes_of (s : string) : list N :=
  match s with
  | EmptyString => []
  | String a t => N_of_ascii a :: bytes_of t
  end.

Fixpoint utf8_decode (bs : list N) : str :=
  match bs with
  | [] => []
  | b :: t =>
      if (b <? 128)%N then b :: utf8_decode t
      else if (b <? 224)%N then
        match t with
        | b1 :: t' => ((b - 192) * 64 + (b1 - 128))%N :: utf8_decode t'
        | _ => []
        end
      else if (b <? 240)%N then
        match t with
        | b1 :: b2 :: t' =>
            ((b - 224) * 4096 + (b1 - 128) * 64 + (b2 - 128))%N
              :: utf8_decode t'
        | _ => []
        end
      else
        match t with
        | b1 :: b2 :: b3 :: t' =>
            ((b - 240) * 262144 + (b1 - 128) * 4096
             + (b2 - 128) * 64 + (b3 - 128))%N :: utf8_decode t'
        | _ => []
        end
  end.

Definition py (s : string) : str := utf8_decode (bytes_of s).

(** [bool(s)] for a string: the empty string is the only falsy one. *)
Definition truthy (s : str) : bool := negb (bool_decide (s = [])).

(** ** Exceptions and results *)

Inductive exn_kind :=
  | RequestException
  | JSONDecodeError
  | ValueError
  | TypeError
  | AttributeError
  | OverflowError
  | OSError
  | OtherException.

Record exn := Exn { exn_class : exn_kind; exn_msg : str }.

Inductive result (A : Type) :=
  | Ok (a : A)
  | Raise (e : exn).
Arguments Ok {A} a.
Arguments Raise {A} e.

#[global] Instance result_ret : MRet result := fun A a => Ok a.

#[global] Instance result_bind : MBind result := fun A B k r =>
  match r with
  | Ok a => k a
  | Raise e => Raise e
  end.

(** ** String operations used by the source *)

(** [s.replace(c, new)] for a one-character pattern [c]. *)
Definition str_replace1 (c : N) (new s : str) : str :=
  s ≫= (fun x => if bool_decide (x = c) then new else [x]).

Fixpoint str_startswith (p s : str) : bool :=
  match p, s with
  | [], _ => true
  | _ :: _, [] => false
  | x :: p', y :: s' => bool_decide (x = y) && str_startswith p' s'
  end.

(** [needle in hay]. *)
Fixpoint str_contains (needle hay : str) : bool :=
  str_startswith needle hay
  || match hay with
     | [] => false
     | _ :: t => str_contains needle t
     end.

(** [str.isspace] on one code point. *)
Definition py_isspace (c : N) : bool :=
  ((9 <=? c) && (c <=? 13) || (28 <=? c) && (c <=? 32)
   || (c =? 133) || (c =? 160) || (c =? 5760)
   || (8192 <=? c) && (c <=? 8202)
   || (c =? 8232) || (c =? 8233) || (c =? 8239) || (c =? 8287)
   || (c =? 12288))%N.

Fixpoint str_lstrip (s : str) : str :=
  match s with
  | [] => []
  | c :: t => if py_isspace c then str_lstrip t else s
  end.

Definition str_strip (s : str) : str :=
  reverse (str_lstrip (reverse (str_lstrip s))).

(** A string with a character that is not white space. *)
Definition nonblank (s : str) : Prop :=
  exists c, c ∈ s /\ py_isspace c = false.

Definition LT : N := 60.
Definition GT : N := 62.
Definition LF : N := 10.

(** [re.sub(r'<[^>]+>', '', s)].

    [tag_opens t] decides whether the pattern matches at a "<" that is
    followed by [t]: the class [[^>]+] needs one character that is not ">"
    and, being greedy over characters that are not ">", stops at the first
    ">" after it, which must exist.  [re_sub_tags] scans left to right; at a
    match it drops the text up to and including that ">" ([skip_tag]) and
    goes on behind it, otherwise it keeps the character. *)
Definition tag_opens (t : str) : bool :=
  match t with
  | [] => false
  | c :: t' => negb (bool_decide (c = GT)) && bool_decide (GT ∈ t')
  end.

Fixpoint re_sub_tags (s : str) {struct s} : str :=
  match s with
  | [] => []
  | c :: t =>
      if bool_decide (c = LT) && tag_opens t then skip_tag t
      else c :: re_sub_tags t
  end
with skip_tag (s : str) {struct s} : str :=
  match s with
  | [] => []
  | c :: t => if bool_decide (c = GT) then re_sub_tags t else skip_tag t
  end.

(** A full match of [<[^>]+>], and a string in which the pattern matches
    somewhere. *)
Definition is_tag (m : str) : Prop :=
  exists body, m = LT :: body ++ [GT] /\ body ≠ [] /\ GT ∉ body.

Definition contains_tag (s : str) : Prop :=
  exists p m q, s = p ++ m ++ q /\ is_tag m.

(** No "<" of the string starts a match of the pattern. *)
Definition tag_free (out : str) : Prop :=
  forall p r, out = p ++ LT :: r -> tag_opens r = false.

(** ** Dates and times

    A [datetime] holds its wall-clock fields as the number of microseconds
    since 0001-01-01T00:00:00, and its utc offset in microseconds when it is
    aware ([tzinfo] is not [None]).  The fields range over the years 1 to
    9999; a [timedelta] holds at most 999999999 days. *)

Record datetime := mkDatetime { wall : Z; utcoffset : option Z }.

Definition US_PER_HOUR : Z := 3600 * 1000000.
Definition US_PER_DAY : Z := 86400 * 1000000.
Definition MAX_WALL : Z := 3652059 * US_PER_DAY - 1.

(** [timedelta(hours=hours)], in microseconds. *)
Definition timedelta_hours (hours : Z) : result Z :=
  let us := hours * US_PER_HOUR in
  let days := us `div` US_PER_DAY in
  if (-999999999 <=? days) && (days <=? 999999999)
  then Ok us
  else Raise (Exn OverflowError (py "days must have magnitude <= 999999999")).

(** [d - td]. *)
Definition datetime_sub (d : datetime) (td : Z) : result datetime :=
  let w := wall d - td in
  if (0 <=? w) && (w <=? MAX_WALL)
  then Ok {| wall := w; utcoffset := utcoffset d |}
  else Raise (Exn OverflowError (py "date value out of range")).

(** The instant of an aware datetime, in microseconds of UTC. *)
Definition utc_instant (d : datetime) : Z :=
  wall d - default 0 (utcoffset d).

(** [a >= b]: two aware datetimes compare by instant, two naive ones by
    their fields, and a naive one does not compare with an aware one. *)
Definition datetime_ge (a b : datetime) : result bool :=
  match utcoffset a, utcoffset b with
  | Some oa, Some ob => Ok (wall b - ob <=? wall a - oa)
  | None, None => Ok (wall b <=? wall a)
  | _, _ =>
      Raise (Exn TypeError
               (py "can't compare offset-naive and offset-aware datetimes"))
  end.

(** [d.replace(tzinfo=timezone.utc)]. *)
Definition replace_tzinfo_utc (d : datetime) : datetime :=
  {| wall := wall d; utcoffset := Some 0 |}.

(** [datetime.now(timezone.utc)] when the clock reads [now]. *)
Definition datetime_now_utc (now : Z) : datetime :=
  {| wall := now; utcoffset := Some 0 |}.

(** The first six fields of a [time.struct_time]. *)
Record struct_time := mkStructTime {
  tm_year : Z; tm_mon : Z; tm_mday : Z;
  tm_hour : Z; tm_min : Z; tm_sec : Z;
}.

Definition is_leap (y : Z) : bool :=
  (y mod 4 =? 0) && (negb (y mod 100 =? 0) || (y mod 400 =? 0)).

Definition days_in_month (y m : Z) : Z :=
  if m =? 2 then (if is_leap y then 29 else 28)
  else if (m =? 4) || (m =? 6) || (m =? 9) || (m =? 11) then 30
  else 31.

Definition digit (n : Z) : N := Z.to_N (48 + n mod 10).
Definition pad2 (n : Z) : str := [digit (n / 10); digit n].
Definition pad4 (n : Z) : str :=
  [digit (n / 1000); digit (n / 100); digit (n / 10); digit n].

(** [isoformat] of the datetime built from the six fields: the constructor
    checks their ranges.  The message of the [ValueError] stands for
    datetime's own, which names the field that is out of range. *)
Definition struct_time_isoformat (t : struct_time) : result str :=
  if (1 <=? tm_year t) && (tm_year t <=? 9999)
     && (1 <=? tm_mon t) && (tm_mon t <=? 12)
     && (1 <=? tm_mday t) && (tm_mday t <=? days_in_month (tm_year t) (tm_mon t))
     && (0 <=? tm_hour t) && (tm_hour t <=? 23)
     && (0 <=? tm_min t) && (tm_min t <=? 59)
     && (0 <=? tm_sec t) && (tm_sec t <=? 59)
  then Ok (pad4 (tm_year t) ++ py "-" ++ pad2 (tm_mon t) ++ py "-"
           ++ pad2 (tm_mday t) ++ py "T" ++ pad2 (tm_hour t) ++ py ":"
           ++ pad2 (tm_min t) ++ py ":" ++ pad2 (tm_sec t))
  else Raise (Exn ValueError (py "datetime field is out of range")).

(** [len(s)] of a string or a list, and the slice [s[:n]] for [n >= 0]. *)
Definition py_len {A} (s : list A) : Z := Z.of_nat (length s).
Definition str_prefix (n : Z) (s : str) : str := take (Z.to_nat n) s.

(** * fetch_articles.py *)

Module FetchArticles.

Definition DEFAULT_OUTPUT_PATH : str := py "/tmp/today_articles.json".

Definition NYT_SECTIONS : list str :=
  [py "technology"; py "business"; py "world"].

Definition BLOOMBERG_FEEDS : list str :=
  [py "https://feeds.bloomberg.com/markets/news.rss";
   py "https://feeds.bloomberg.com/technology/news.rss";
   py "https://feeds.bloomberg.com/politics/news.rss"].

Definition GUARDIAN_FEEDS : list str :=
  [py "https://www.theguardian.com/world/rss";
   py "https://www.theguardian.com/business/rss";
   py "https://www.theguardian.com/technology/rss"].

(** ** The Article schema

    The dict every adapter builds, with its six keys.  Their values are
    strings, as the adapters' defaults ([""]) and the feed parser give
    them. *)

Record Article := mkArticle {
  source : str;
  section : str;
  title : str;
  abstract : str;
  url : str;
  published_date : str;
}.

(** ** What the upstream services return

    The body of a topics-API response after [response.json()], as far as the
    adapter looks into it: whether it is an object ([data.get] exists), what
    its ["results"] member is (missing, something a [for] loop can run over,
    or a value such as [null] or a number that it cannot), and whether each
    element is an object ([item.get] exists).  A field of an item is a
    string or is missing. *)

Record nyt_item := mkNytItem {
  item_title : option str;
  item_abstract : option str;
  item_url : option str;
  item_published_date : option str;
}.

Inductive json_item :=
  | ItemObject (it : nyt_item)
  | ItemNotObject.

Inductive json_results :=
  | ResultsAbsent
  | ResultsIterable (items : list json_item)
  | ResultsNotIterable.

Inductive json_body :=
  | BodyObject (results : json_results)
  | BodyNotObject.

(** An entry of a parsed feed: the keys the adapters read.
    [entry_published_parsed] is [None] when the attribute is missing or
    falsy. *)
Record feed_entry := mkFeedEntry {
  entry_title : option str;
  entry_summary : option str;
  entry_link : option str;
  entry_published : option str;
  entry_published_parsed : option struct_time;
}.

(** The body of a [for x in xs: articles.append(mk x)] loop inside a [try]:
    the articles appended so far stay in the list when [mk] raises. *)
Fixpoint append_each {X} (mk : X -> result Article)
    (articles : list Article) (xs : list X) : list Article * option exn :=
  match xs with
  | [] => (articles, None)
  | x :: xs' =>
      match mk x with
      | Ok a => append_each mk (articles ++ [a]) xs'
      | Raise e => (articles, Some e)
      end
  end.

Definition _extract_guardian_section (u : str) : str :=
  if str_contains (py "world") u then py "world"
  else if str_contains (py "business") u then py "business"
  else if str_contains (py "technology") u then py "technology"
  else py "general".

Definition _extract_section_from_url (u : str) : str :=
  if str_contains (py "markets") u then py "markets"
  else if str_contains (py "technology") u then py "technology"
  else if str_contains (py "politics") u then py "politics"
  else py "general".

(** [published] of a feed entry: the structured date when there is one,
    else the raw text. *)
Definition entry_date (entry : feed_entry) : result str :=
  match entry_published_parsed entry with
  | Some t => struct_time_isoformat t
  | None => Ok (default [] (entry_published entry))
  end.

Definition bloomberg_article (sec : str) (entry : feed_entry)
  : result Article :=
  published ← entry_date entry;
  Ok {| source := py "Bloomberg";
        section := sec;
        title := default [] (entry_title entry);
        abstract := default [] (entry_summary entry);
        url := default [] (entry_link entry);
        published_date := published |}.

(** Lines 114-118: the summary without its tags, cut to 500 characters. *)
Definition guardian_abstract (entry : feed_entry) : str :=
  let abstract := default [] (entry_summary entry) in
  let abstract := re_sub_tags abstract in
  if 500 <? py_len abstract then str_prefix 500 abstract else abstract.

Definition guardian_article (sec : str) (entry : feed_entry)
  : result Article :=
  published ← entry_date entry;
  let abstract := guardian_abstract entry in
  Ok {| source := py "Guardian";
        section := sec;
        title := default [] (entry_title entry);
        abstract := abstract;
        url := default [] (entry_link entry);
        published_date := published |}.

Definition nyt_article (sec : str) (item : json_item) : result Article :=
  match item with
  | ItemObject it =>
      Ok {| source := py "NYT";
            section := sec;
            title := default [] (item_title it);
            abstract := default [] (item_abstract it);
            url := default [] (item_url it);
            published_date := default [] (item_published_date it) |}
  | ItemNotObject =>
      Raise (Exn AttributeError (py "object has no attribute 'get'"))
  end.

Section Adapters.

(** [requests.get(url, params={"api-key": key})], [raise_for_status()] and
    [response.json()] together. *)
Variable requests_get : str -> str -> result json_body.

(** [feedparser.parse(feed_url).entries]. *)
Variable feedparser_parse : str -> result (list feed_entry).

(** The body of the [try] for one section. *)
Definition nyt_try (api_key sec : str) (articles : list Article)
  : list Article * option exn :=
  let u := py "https://api.nytimes.com/svc/topstories/v2/" ++ sec
           ++ py ".json" in
  match requests_get u api_key with
  | Raise e => (articles, Some e)
  | Ok BodyNotObject =>
      (articles, Some (Exn AttributeError (py "object has no attribute 'get'")))
  | Ok (BodyObject ResultsAbsent) => (articles, None)
  | Ok (BodyObject ResultsNotIterable) =>
      (articles, Some (Exn TypeError (py "object is not iterable")))
  | Ok (BodyObject (ResultsIterable items)) =>
      append_each (nyt_article sec) articles items
  end.

(** One turn of the loop over [NYT_SECTIONS], with its two [except]
    clauses; any other exception leaves the function.  The result is then
    the exception alone: the lines printed for earlier sections are not
    part of it. *)
Definition nyt_section (api_key : str)
    (st : result (list Article * list str)) (sec : str)
  : result (list Article * list str) :=
  '(articles, stderr) ← st;
  match nyt_try api_key sec articles with
  | (articles', None) => Ok (articles', stderr)
  | (articles', Some e) =>
      match exn_class e with
      | RequestException =>
          Ok (articles',
              stderr ++ [py "[ERROR] NYT " ++ sec ++ py " の取得に失敗: "
                         ++ exn_msg e])
      | JSONDecodeError =>
          Ok (articles',
              stderr ++ [py "[ERROR] NYT " ++ sec
                         ++ py " のJSONパースに失敗: " ++ exn_msg e])
      | _ => Raise e
      end
  end.

(** The articles and the lines written to stderr. *)
Definition fetch_nyt_articles (api_key : str)
  : result (list Article * list str) :=
  foldl (nyt_section api_key) (Ok ([], [])) NYT_SECTIONS.

(** The body of the [try] for one feed, shared by the two feed adapters. *)
Definition feed_try (extract : str -> str)
    (mk : str -> feed_entry -> result Article)
    (feed_url : str) (articles : list Article) : list Article * option exn :=
  match feedparser_parse feed_url with
  | Raise e => (articles, Some e)
  | Ok entries => append_each (mk (extract feed_url)) articles entries
  end.

(** One turn of the loop over the feeds; [except Exception] catches
    whatever the body raised. *)
Definition feed_turn (name : str) (extract : str -> str)
    (mk : str -> feed_entry -> result Article)
    (st : list Article * list str) (feed_url : str)
  : list Article * list str :=
  match feed_try extract mk feed_url st.1 with
  | (articles', None) => (articles', st.2)
  | (articles', Some e) =>
      (articles',
       st.2 ++ [py "[ERROR] " ++ name ++ py " " ++ feed_url
                ++ py " の取得に失敗: " ++ exn_msg e])
  end.

Definition fetch_bloomberg_articles : list Article * list str :=
  foldl (feed_turn (py "Bloomberg") _extract_section_from_url
           bloomberg_article)
        ([], []) BLOOMBERG_FEEDS.

Definition fetch_guardian_articles : list Article * list str :=
  foldl (feed_turn (py "Guardian") _extract_guardian_section
           guardian_article)
        ([], []) GUARDIAN_FEEDS.

End Adapters.

(** ** filter_recent_articles *)

Section Filter.

(** [datetime.fromisoformat]: the datetime, or [None] for [ValueError]. *)
Variable fromisoformat : str -> option datetime.

(** The parsed date of an article as the loop body computes it: every "Z"
    replaced by "+00:00", parsed, and taken as UTC when it is naive. *)
Definition parse_published (pub_date_str : str) : option datetime :=
  match fromisoformat (str_replace1 90 (py "+00:00") pub_date_str) with
  | None => None
  | Some pub_date =>
      Some (match utcoffset pub_date with
            | None => replace_tzinfo_utc pub_date
            | Some _ => pub_date
            end)
  end.

(** One turn of the loop over [articles]. *)
Definition filter_turn (cutoff : datetime)
    (st : result (list Article)) (article : Article)
  : result (list Article) :=
  filtered ← st;
  let pub_date_str := published_date article in
  if negb (truthy pub_date_str) then Ok (filtered ++ [article])
  else
    match parse_published pub_date_str with
    | None => Ok (filtered ++ [article])
    | Some pub_date =>
        keep ← datetime_ge pub_date cutoff;
        Ok (if keep : bool then filtered ++ [article] else filtered)
    end.

(** [now] is what the clock reads when the function is entered. *)
Definition filter_recent_articles (now : Z) (articles : list Article)
    (hours : Z) : result (list Article) :=
  td ← timedelta_hours hours;
  cutoff ← datetime_sub (datetime_now_utc now) td;
  foldl (filter_turn cutoff) (Ok []) articles.

(** What the specification of the filter says: an article stays when its
    date is empty, when its date does not parse, or when the parsed instant
    is not before [now] minus the window. *)
Definition in_window (now hours : Z) (a : Article) : bool :=
  match published_date a with
  | [] => true
  | s =>
      match parse_published s with
      | None => true
      | Some d => now - hours * US_PER_HOUR <=? utc_instant d
      end
  end.

End Filter.

(** ** deduplicate_articles

    One turn of the loop: the state is the set [seen_urls] and the list
    [unique]. *)
Definition dedup_turn (st : gset str * list Article) (article : Article)
  : gset str * list Article :=
  let u := url article in
  if truthy u && bool_decide (u ∉ st.1)
  then ({[u]} ∪ st.1, st.2 ++ [article])
  else st.

Definition deduplicate_articles (articles : list Article) : list Article :=
  (foldl dedup_turn (∅, []) articles).2.

(** The same loop as a recursion on the remaining input, used in proofs. *)
Fixpoint dedup_from (seen : gset str) (l : list Article) : list Article :=
  match l with
  | [] => []
  | a :: l' =>
      if truthy (url a) && bool_decide (url a ∉ seen)
      then a :: dedup_from ({[url a]} ∪ seen) l'
      else dedup_from seen l'
  end.

(** What the specification of the de-duplicator describes: the articles
    that are the first of their non-empty url, in input order. *)
Definition is_first_seen (l : list Article) (i : nat) (a : Article) : bool :=
  truthy (url a) && bool_decide (url a ∉ url <$> take i l).

Definition first_seen_articles (l : list Article) : list Article :=
  mjoin (imap (fun i a => if is_first_seen l i a then [a] else []) l).

(** ** main *)

Record cli := mkCli { cli_output : option str; cli_hours : option Z }.

Record args := mkArgs { output : str; hours : Z }.

Definition parse_args (c : cli) : args :=
  {| output := default DEFAULT_OUTPUT_PATH (cli_output c);
     hours := default 48 (cli_hours c) |}.

(** The dict handed to [json.dump]. *)
Record output_data := mkOutput {
  fetched_at : str;
  total_count : Z;
  articles : list Article;
}.

Inductive outcome :=
  | SysExit (code : Z)
  | Uncaught (e : exn)
  | Dumped (path : str) (doc : output_data).

Section Main.

Variable requests_get : str -> str -> result json_body.
Variable feedparser_parse : str -> result (list feed_entry).
Variable fromisoformat : str -> option datetime.
(** [isoformat()] of an aware UTC datetime. *)
Variable isoformat : datetime -> str.
(** [os.environ.get("NYT_API_KEY")]. *)
Variable NYT_API_KEY : option str.
(** The clock when the filter reads it, and when the output is built. *)
Variable now_filter now_output : Z.
(** [open(path, "w")]. *)
Variable open_w : str -> result unit.

(** The lines written to stderr and how the run ends.  What is printed to
    stdout (the counts of each stage) is left out. *)
Definition main (c : cli) : list str * outcome :=
  let args := parse_args c in
  let nyt_api_key := default [] NYT_API_KEY in
  if negb (truthy nyt_api_key)
  then ([py "[ERROR] NYT_API_KEY が設定されていません"], SysExit 1)
  else
    match fetch_nyt_articles requests_get nyt_api_key with
    | Raise e => ([], Uncaught e)
    | Ok (nyt_articles, err1) =>
        let all_articles := [] ++ nyt_articles in
        let '(bloomberg_articles, err2) :=
          fetch_bloomberg_articles feedparser_parse in
        let all_articles := all_articles ++ bloomberg_articles in
        let '(guardian_articles, err3) :=
          fetch_guardian_articles feedparser_parse in
        let all_articles := all_articles ++ guardian_articles in
        let stderr := err1 ++ err2 ++ err3 in
        match filter_recent_articles fromisoformat now_filter all_articles
                (hours args) with
        | Raise e => (stderr, Uncaught e)
        | Ok filtered =>
            let unique := deduplicate_articles filtered in
            let output_data :=
              {| fetched_at := isoformat (datetime_now_utc now_output);
                 total_count := py_len unique;
                 articles := unique |} in
            match open_w (output args) with
            | Raise e => (stderr, Uncaught e)
            | Ok _ => (stderr, Dumped (output args) output_data)
            end
        end
    end.

End Main.

(** ** What one upstream unit contributes

    Used to state how the adapters put the units together. *)

(** The address the topics adapter requests for a section. *)
Definition nyt_url (sec : str) : str :=
  py "https://api.nytimes.com/svc/topstories/v2/" ++ sec ++ py ".json".

(** The exception classes the topics adapter has an [except] clause for. *)
Definition nyt_caught (e : exn) : bool :=
  match exn_class e with
  | RequestException | JSONDecodeError => true
  | _ => false
  end.

(** The items of a body the adapter can walk through: an object whose
    "results" member is missing or holds objects only. *)
Definition item_object (i : json_item) : option nyt_item :=
  match i with
  | ItemObject it => Some it
  | ItemNotObject => None
  end.

Definition nyt_items (b : json_body) : option (list nyt_item) :=
  match b with
  | BodyObject ResultsAbsent => Some []
  | BodyObject (ResultsIterable items) => mapM item_object items
  | _ => None
  end.

Definition nyt_item_article (sec : str) (it : nyt_item) : Article :=
  {| source := py "NYT";
     section := sec;
     title := default [] (item_title it);
     abstract := default [] (item_abstract it);
     url := default [] (item_url it);
     published_date := default [] (item_published_date it) |}.

(** A response the adapter handles: a failure it catches, or a body it can
    walk through. *)
Definition nyt_handled (r : result json_body) : Prop :=
  match r with
  | Raise e => nyt_caught e = true
  | Ok b => is_Some (nyt_items b)
  end.

Definition nyt_failed (r : result json_body) : bool :=
  match r with
  | Raise _ => true
  | Ok _ => false
  end.

Definition nyt_response_articles (sec : str) (r : result json_body)
  : list Article :=
  match r with
  | Raise _ => []
  | Ok b => nyt_item_article sec <$> default [] (nyt_items b)
  end.

(** ** Sample inputs *)

(** An article without a url. *)
Definition no_url_article : Article :=
  {| source := py "Bloomberg"; section := py "markets";
     title := py "Untitled"; abstract := [];
     url := []; published_date := [] |}.

Definition sample (u t : string) : Article :=
  {| source := py "NYT"; section := py "world";
     title := py t; abstract := [];
     url := py u; published_date := [] |}.

(** A parser for the plain form YYYY-MM-DDTHH:MM:SS with an optional
    +HH:MM or -HH:MM offset, to evaluate the filter on concrete dates. *)
Definition digit_val (c : N) : option Z :=
  if ((48 <=? c) && (c <=? 57))%N then Some (Z.of_N c - 48) else None.

Fixpoint number_from (acc : Z) (ds : str) : option Z :=
  match ds with
  | [] => Some acc
  | c :: ds' =>
      match digit_val c with
      | Some v => number_from (acc * 10 + v) ds'
      | None => None
      end
  end.

Definition field (i n : nat) (s : str) : option Z :=
  if bool_decide (length (take n (drop i s)) = n)
  then number_from 0 (take n (drop i s))
  else None.

Definition days_before_year (y : Z) : Z :=
  (y - 1) * 365 + (y - 1) / 4 - (y - 1) / 100 + (y - 1) / 400.

Definition days_before_month (y m : Z) : Z :=
  foldr (fun k acc => days_in_month y k + acc) 0
        (Z.of_nat <$> seq 1 (Z.to_nat (m - 1))).

Definition sample_offset (s : str) : option (option Z) :=
  match s with
  | [] => Some None
  | sign :: _ =>
      if bool_decide (length s = 6%nat) && bool_decide (s !! 3%nat = Some 58%N)
      then
        h ← field 1 2 s; m ← field 4 2 s;
        let off := (h * 3600 + m * 60) * 1000000 in
        if bool_decide (sign = 43%N) then Some (Some off)
        else if bool_decide (sign = 45%N) then Some (Some (- off))
        else None
      else None
  end.

Definition sample_fromisoformat (s : str) : option datetime :=
  y ← field 0 4 s; mo ← field 5 2 s; d ← field 8 2 s;
  h ← field 11 2 s; mi ← field 14 2 s; sec ← field 17 2 s;
  off ← sample_offset (drop 19 s);
  if bool_decide (s !! 4%nat = Some 45%N) && bool_decide (s !! 7%nat = Some 45%N)
     && bool_decide (s !! 10%nat = Some 84%N)
     && bool_decide (s !! 13%nat = Some 58%N)
     && bool_decide (s !! 16%nat = Some 58%N)
     && (1 <=? y) && (y <=? 9999) && (1 <=? mo) && (mo <=? 12)
     && (1 <=? d) && (d <=? days_in_month y mo)
     && (h <=? 23) && (mi <=? 59) && (sec <=? 59)
  then Some {| wall := ((days_before_year y + days_before_month y mo + d - 1)
                        * 86400 + h * 3600 + mi * 60 + sec) * 1000000;
               utcoffset := off |}
  else None.

Definition dated (u d : string) : Article :=
  {| source := py "Guardian"; section := py "world";
     title := py "dated"; abstract := [];
     url := py u; published_date := py d |}.

(** 2026-11-04T00:00:00 UTC, in microseconds since 0001-01-01. *)
Definition sample_now : Z := 63929347200000000.

(** A topics API that answers the "business" section with a body whose
    "results" member is null, and the other sections with one item. *)
Definition null_results_get (u key : str) : result json_body :=
  if str_contains (py "business") u
  then Ok (BodyObject ResultsNotIterable)
  else Ok (BodyObject (ResultsIterable
             [ItemObject {| item_title := Some (py "A title");
                            item_abstract := Some (py "An abstract");
                            item_url := Some u;
                            item_published_date := None |}])).

(** Feeds with one entry each. *)
Definition one_entry_parse (u : str) : result (list feed_entry) :=
  Ok [{| entry_title := Some (py "An entry");
         entry_summary := Some (py "<p>Hello <b>world</b></p>");
         entry_link := Some u;
         entry_published := None;
         entry_published_parsed := None |}].

Definition sample_isoformat (d : datetime) : str :=
  py "2026-11-04T00:00:05+00:00".

Definition always_open (path : str) : result unit := Ok tt.

(** A topics API whose "business" section is down. *)
Definition business_down_get (u key : str) : result json_body :=
  if str_contains (py "business") u
  then Raise (Exn RequestException (py "503 Service Unavailable"))
  else Ok (BodyObject (ResultsIterable
             [ItemObject {| item_title := Some (py "A title");
                            item_abstract := Some (py "An abstract");
                            item_url := Some u;
                            item_published_date := None |}])).

(** A feed whose second entry carries a date no datetime can hold. *)
Definition good_entry (link : string) : feed_entry :=
  {| entry_title := Some (py "An entry");
     entry_summary := Some (py "A summary");
     entry_link := Some (py link);
     entry_published := Some (py "Wed, 04 Nov 2026 00:00:00 GMT");
     entry_published_parsed := Some (mkStructTime 2026 11 4 0 0 0) |}.

Definition bad_date_entry : feed_entry :=
  {| entry_title := Some (py "A leap second");
     entry_summary := Some (py "A summary");
     entry_link := Some (py "https://b.example/2");
     entry_published := Some (py "Wed, 31 Dec 2025 23:59:60 GMT");
     entry_published_parsed := Some (mkStructTime 2025 12 31 23 59 60) |}.

Definition bad_date_parse (u : str) : result (list feed_entry) :=
  Ok [good_entry "https://b.example/1"; bad_date_entry;
      good_entry "https://b.example/3"].

(** A run with articles from every adapter: the topics API answers
    "technology" with a fresh article and an old one, fails for "business",
    and answers "world" with an article 60 hours old; the Bloomberg markets
    feed repeats the url of the old article with a fresh date, and the
    Guardian world feed repeats the url of the fresh one. *)
Definition mixed_get (u key : str) : result json_body :=
  if str_contains (py "technology") u
  then Ok (BodyObject (ResultsIterable
             [ItemObject {| item_title := Some (py "Fresh");
                            item_abstract := Some (py "A fresh article");
                            item_url := Some (py "https://n.example/a");
                            item_published_date :=
                              Some (py "2026-11-03T12:00:00Z") |};
              ItemObject {| item_title := Some (py "Old");
                            item_abstract := Some (py "An old article");
                            item_url := Some (py "https://shared.example/x");
                            item_published_date :=
                              Some (py "2026-10-25T00:00:00Z") |}]))
  else if str_contains (py "business") u
  then Raise (Exn RequestException (py "503 Service Unavailable"))
  else Ok (BodyObject (ResultsIterable
             [ItemObject {| item_title := Some (py "Sixty hours");
                            item_abstract := Some (py "Sixty hours old");
                            item_url := Some (py "https://n.example/c");
                            item_published_date :=
                              Some (py "2026-11-01T12:00:00Z") |}])).

Definition mixed_parse (u : str) : result (list feed_entry) :=
  if str_contains (py "markets") u
  then Ok [{| entry_title := Some (py "Old, again");
              entry_summary := Some (py "Seen again today");
              entry_link := Some (py "https://shared.example/x");
              entry_published := Some (py "Tue, 03 Nov 2026 06:00:00 GMT");
              entry_published_parsed :=
                Some (mkStructTime 2026 11 3 6 0 0) |}]
  else if str_contains (py "world") u
  then Ok [{| entry_title := Some (py "Fresh, again");
              entry_summary := Some (py "<p>A <b>fresh</b> article</p>");
              entry_link := Some (py "https://n.example/a");
              entry_published := None;
              entry_published_parsed := None |}]
  else Ok [].

Definition mixed_cli : cli :=
  {| cli_output := Some (py "/data/articles.json");
     cli_hours := Some 72 |}.

Definition article_fresh : Article :=
  {| source := py "NYT"; section := py "technology";
     title := py "Fresh"; abstract := py "A fresh article";
     url := py "https://n.example/a";
     published_date := py "2026-11-03T12:00:00Z" |}.


Definition article_sixty : Article :=
  {| source := py "NYT"; section := py "world";
     title := py "Sixty hours"; abstract := py "Sixty hours old";
     url := py "https://n.example/c";
     published_date := py "2026-11-01T12:00:00Z" |}.

Definition article_old_again : Article :=
  {| source := py "Bloomberg"; section := py "markets";
     title := py "Old, again"; abstract := py "Seen again today";
     url := py "https://shared.example/x";
     published_date := py "2026-11-03T06:00:00" |}.


Definition mixed_stderr : list str :=
  [py "[ERROR] NYT business の取得に失敗: 503 Service Unavailable"].

Definition mixed_document : output_data :=
  {| fetched_at := py "2026-11-04T00:00:05+00:00";
     total_count := 3;
     articles := [article_fresh; article_sixty; article_old_again] |}.

End FetchArticles.

(** * post_to_slack.py *)

Module PostToSlack.

Definition DEFAULT_INPUT_PATH : str := py "/tmp/selected.md".

Definition MAX_LENGTH : Z := 39000.

Definition TRUNCATION_NOTICE : str :=
  [LF; LF] ++ py "_(メッセージが長すぎるため省略されました)_".

(** The JSON body of the POST. *)
Record payload := mkPayload { text : str }.

Record cli := mkCli {
  cli_input : option str;
  cli_message : option str;
  cli_error : option str;
}.

Record args := mkArgs {
  input : str;
  message : option str;
  error : option str;
}.

Definition parse_args (c : cli) : args :=
  {| input := default DEFAULT_INPUT_PATH (cli_input c);
     message := cli_message c;
     error := cli_error c |}.

Inductive outcome :=
  | Returned
  | SysExit (code : Z)
  | Uncaught (e : exn).

(** A run: the payloads handed to [requests.post], in order, the lines
    written to stderr, and how the run ends. *)
Record run := mkRun {
  posted : list payload;
  stderr : list str;
  ending : outcome;
}.

(** Lines 93-97 of [main]: the cut at [MAX_LENGTH]. *)
Definition cap_message (message : str) : str :=
  if MAX_LENGTH <? py_len message
  then str_prefix MAX_LENGTH message ++ TRUNCATION_NOTICE
  else message.

Definition error_message_text (error_message : str) : str :=
  py ":rotating_light: *記事キュレーションでエラーが発生しました*"
  ++ [LF; LF] ++ py "```" ++ [LF] ++ error_message ++ [LF] ++ py "```".

Section Post.

(** [requests.post(webhook_url, json=payload, ...)] and
    [raise_for_status()] together. *)
Variable requests_post : str -> payload -> result unit.
(** [os.environ.get("SLACK_WEBHOOK_URL")]. *)
Variable SLACK_WEBHOOK_URL : option str.
(** The text of the file at a path, [None] when there is no such file.  A
    file that exists and cannot be read (a directory, bytes that are not
    UTF-8) is outside this model. *)
Variable read_file : str -> option str.

(** The payload posted, the lines written to stderr, and the result. *)
Definition post_to_slack (webhook_url message : str)
  : payload * list str * result bool :=
  let payload := {| text := message |} in
  match requests_post webhook_url payload with
  | Ok _ => (payload, [], Ok true)
  | Raise e =>
      match exn_class e with
      | RequestException =>
          (payload, [py "[ERROR] Slack投稿に失敗: " ++ exn_msg e], Ok false)
      | _ => (payload, [], Raise e)
      end
  end.

Definition post_error_to_slack (webhook_url error_message : str)
  : payload * list str * result bool :=
  post_to_slack webhook_url (error_message_text error_message).

Definition main (c : cli) : run :=
  let args := parse_args c in
  let webhook_url := default [] SLACK_WEBHOOK_URL in
  if negb (truthy webhook_url)
  then {| posted := [];
          stderr := [py "[ERROR] SLACK_WEBHOOK_URL が設定されていません"];
          ending := SysExit 1 |}
  else if truthy (default [] (error args))
  then
    let '(p, err, success) :=
      post_error_to_slack webhook_url (default [] (error args)) in
    {| posted := [p]; stderr := err;
       ending := match success with
                 | Ok true => SysExit 0
                 | Ok false => SysExit 1
                 | Raise e => Uncaught e
                 end |}
  else
    let chosen :=
      if truthy (default [] (message args))
      then Some (default [] (message args))
      else read_file (input args) in
    match chosen with
    | None =>
        {| posted := [];
           stderr := [py "[ERROR] 入力ファイルが見つかりません: "
                      ++ input args];
           ending := SysExit 1 |}
    | Some message =>
        if negb (truthy (str_strip message))
        then {| posted := [];
                stderr := [py "[WARNING] メッセージが空です"];
                ending := SysExit 0 |}
        else
          let message := cap_message message in
          let '(p, err, success) := post_to_slack webhook_url message in
          {| posted := [p]; stderr := err;
             ending := match success with
                       | Ok true => Returned
                       | Ok false => SysExit 1
                       | Raise e => Uncaught e
                       end |}
    end.

End Post.

(** ** Sample inputs *)

Definition long_text : str := replicate (Z.to_nat 40000) 120%N.

Definition sample_webhook : option str :=
  Some (py "https://hooks.slack.example/services/T000/B000/XXXX").

Definition accepting_post (u : str) (p : payload) : result unit := Ok tt.

Definition no_file (path : str) : option str := None.

End PostToSlack.

(** * select_articles.py *)

Module SelectArticles.

Definition DEFAULT_INPUT_PATH : str := py "/tmp/today_articles.json".
Definition DEFAULT_OUTPUT_PATH : str := py "/tmp/selected.md".
Definition MODEL : str := py "claude-sonnet-4-20250514".
Definition MAX_TOKENS : Z := 4096.

(** What is written when there is no article to select from. *)
Definition NO_ARTICLES_NOTICE : str :=
  py ":warning: 本日は選定対象の記事がありませんでした。".

(** ** The loaded JSON document

    What [json.load] returned, as far as the script looks into it: whether
    it is an object ([articles_data.get] exists), whether it has an
    "articles" member, whether that member has a length and can be walked
    through (a list, but also a string or an object), and whether each
    element is an object ([article.get] exists).  A key of an article is a
    string or is missing. *)

Record article_dict := mkArticleDict {
  d_title : option str;
  d_source : option str;
  d_section : option str;
  d_published_date : option str;
  d_url : option str;
  d_abstract : option str;
}.

Inductive json_article :=
  | ArticleObject (d : article_dict)
  | ArticleNotObject.

Inductive json_member :=
  | Sized (items : list json_article)
  | NoLen.

Inductive articles_data :=
  | DataObject (articles : option json_member)
  | DataNotObject.

(** [articles_data.get("articles", [])]. *)
Definition get_articles (data : articles_data) : result json_member :=
  match data with
  | DataObject articles => Ok (default (Sized []) articles)
  | DataNotObject =>
      Raise (Exn AttributeError (py "object has no attribute 'get'"))
  end.

(** The elements of a value that [len] accepts. *)
Definition sized_items (v : json_member) : result (list json_article) :=
  match v with
  | Sized items => Ok items
  | NoLen => Raise (Exn TypeError (py "object has no len()"))
  end.

(** [str(n)] for a natural number. *)
Fixpoint uint_digits (d : Decimal.uint) : str :=
  match d with
  | Decimal.Nil => []
  | Decimal.D0 d => 48%N :: uint_digits d
  | Decimal.D1 d => 49%N :: uint_digits d
  | Decimal.D2 d => 50%N :: uint_digits d
  | Decimal.D3 d => 51%N :: uint_digits d
  | Decimal.D4 d => 52%N :: uint_digits d
  | Decimal.D5 d => 53%N :: uint_digits d
  | Decimal.D6 d => 54%N :: uint_digits d
  | Decimal.D7 d => 55%N :: uint_digits d
  | Decimal.D8 d => 56%N :: uint_digits d
  | Decimal.D9 d => 57%N :: uint_digits d
  end.

Definition str_of_nat (n : nat) : str := uint_digits (Nat.to_uint n).

(** [sep.join(lines)]. *)
Definition str_join (sep : str) (lines : list str) : str :=
  match lines with
  | [] => []
  | l :: ls => l ++ mjoin ((fun x => sep ++ x) <$> ls)
  end.

(** ** format_articles_for_prompt *)

Definition heading_line (n : nat) : str :=
  py "## 記事リスト（" ++ str_of_nat n ++ py "件）" ++ [LF].

(** The seven lines one turn of the loop appends. *)
Definition article_lines (i : nat) (article : article_dict) : list str :=
  [py "### " ++ str_of_nat i ++ py ". "
     ++ default (py "タイトルなし") (d_title article);
   py "- **メディア**: " ++ default (py "不明") (d_source article);
   py "- **セクション**: " ++ default (py "不明") (d_section article);
   py "- **公開日時**: " ++ default (py "不明") (d_published_date article);
   py "- **URL**: " ++ default [] (d_url article);
   py "- **概要**: " ++ default (py "概要なし") (d_abstract article);
   []].

(** The loop over [enumerate(articles, 1)], from index [i] on. *)
Fixpoint format_loop (i : nat) (lines : list str)
    (articles : list json_article) : result (list str) :=
  match articles with
  | [] => Ok lines
  | ArticleObject d :: rest =>
      format_loop (S i) (lines ++ article_lines i d) rest
  | ArticleNotObject :: _ =>
      Raise (Exn AttributeError (py "object has no attribute 'get'"))
  end.

Definition format_articles_for_prompt (data : articles_data) : result str :=
  articles ← get_articles data;
  items ← sized_items articles;
  lines ← format_loop 1 [heading_line (length items)] items;
  Ok (str_join [LF] lines).

(** ** select_articles_with_claude *)

Record message := mkMessage { role : str; content : str }.

Record request := mkRequest {
  req_model : str;
  req_max_tokens : Z;
  req_system : str;
  req_messages : list message;
}.

Record content_block := mkBlock { block_type : str; block_text : str }.

(** What [client.messages.create] does: a reply, an [anthropic.APIError],
    or another exception. *)
Inductive api_outcome :=
  | ApiReply (blocks : list content_block)
  | ApiError (msg : str)
  | ApiRaise (e : exn).

(** What the [try] of [main] can be left with. *)
Inductive failure :=
  | FailedAPI (msg : str)
  | FailedWith (e : exn).

(** The loop over [response.content]. *)
Definition response_text (blocks : list content_block) : str :=
  foldl (fun result block =>
           if bool_decide (block_type block = py "text")
           then result ++ block_text block
           else result)
        [] blocks.

Definition user_message (today articles_text : str) : str :=
  py "以下の記事リストから、選定基準に基づいて記事を選んでください。"
  ++ [LF] ++ py "今日の日付は " ++ today ++ py " です。" ++ [LF; LF]
  ++ articles_text ++ [LF].

Section Select.

(** [client.messages.create(...)] for the client of an API key. *)
Variable messages_create : str -> request -> api_outcome.
(** [datetime.now(timezone.utc).strftime("%Y年%m月%d日")]. *)
Variable today : str.

(** The requests sent, and the text or the failure. *)
Definition select_articles_with_claude
    (data : articles_data) (prompt_template api_key : str)
  : list request * (failure + str) :=
  match format_articles_for_prompt data with
  | Raise e => ([], inl (FailedWith e))
  | Ok articles_text =>
      let req :=
        {| req_model := MODEL;
           req_max_tokens := MAX_TOKENS;
           req_system := prompt_template;
           req_messages :=
             [{| role := py "user";
                 content := user_message today articles_text |}] |} in
      match messages_create api_key req with
      | ApiReply blocks => ([req], inr (response_text blocks))
      | ApiError msg => ([req], inl (FailedAPI msg))
      | ApiRaise e => ([req], inl (FailedWith e))
      end
  end.

(** ** main *)

Record cli := mkCli {
  cli_input : option str;
  cli_output : option str;
  cli_prompt : option str;
}.

Record args := mkArgs { input : str; output : str; prompt : str }.

Inductive outcome :=
  | Returned
  | SysExit (code : Z).

(** A run: the requests sent to the API, the files written (path and
    text), the lines written to stderr, and how the run ends. *)
Record run := mkRun {
  requests : list request;
  written : list (str * str);
  stderr : list str;
  ending : outcome;
}.

(** The path of prompt.txt beside the script. *)
Variable DEFAULT_PROMPT_PATH : str.
(** [os.environ.get("ANTHROPIC_API_KEY")]. *)
Variable ANTHROPIC_API_KEY : option str.
(** [os.path.exists]. *)
Variable path_exists : str -> bool.
(** [load_articles]: [open] and [json.load]. *)
Variable load_articles : str -> result articles_data.
(** [load_prompt]: [open] and [read]. *)
Variable load_prompt : str -> result str.
(** [open(path, "w")] and [write]. *)
Variable write_file : str -> str -> result unit.

Definition parse_args (c : cli) : args :=
  {| input := default DEFAULT_INPUT_PATH (cli_input c);
     output := default DEFAULT_OUTPUT_PATH (cli_output c);
     prompt := default DEFAULT_PROMPT_PATH (cli_prompt c) |}.

(** The three [except] clauses: each prints one line and exits with 1. *)
Definition handler_line (f : failure) : str :=
  match f with
  | FailedAPI msg => py "[ERROR] Claude API エラー: " ++ msg
  | FailedWith e =>
      match exn_class e with
      | JSONDecodeError => py "[ERROR] JSONパースエラー: " ++ exn_msg e
      | _ => py "[ERROR] 予期せぬエラー: " ++ exn_msg e
      end
  end.

Definition failed (reqs : list request) (err : list str) (f : failure)
  : run :=
  {| requests := reqs; written := [];
     stderr := err ++ [handler_line f]; ending := SysExit 1 |}.

Definition main (c : cli) : run :=
  let args := parse_args c in
  let api_key := default [] ANTHROPIC_API_KEY in
  if negb (truthy api_key)
  then {| requests := []; written := [];
          stderr := [py "[ERROR] ANTHROPIC_API_KEY が設定されていません"];
          ending := SysExit 1 |}
  else if negb (path_exists (input args))
  then {| requests := []; written := [];
          stderr := [py "[ERROR] 入力ファイルが見つかりません: "
                     ++ input args];
          ending := SysExit 1 |}
  else if negb (path_exists (prompt args))
  then {| requests := []; written := [];
          stderr := [py "[ERROR] プロンプトファイルが見つかりません: "
                     ++ prompt args];
          ending := SysExit 1 |}
  else
    match load_articles (input args) with
    | Raise e => failed [] [] (FailedWith e)
    | Ok articles_data =>
        match (articles ← get_articles articles_data; sized_items articles)
        with
        | Raise e => failed [] [] (FailedWith e)
        | Ok items =>
            let article_count := length items in
            if bool_decide (article_count = 0%nat)
            then
              let warning :=
                py "[WARNING] 記事が0件です。選定をスキップします。" in
              match write_file (output args) NO_ARTICLES_NOTICE with
              | Raise e => failed [] [warning] (FailedWith e)
              | Ok _ =>
                  {| requests := [];
                     written := [(output args, NO_ARTICLES_NOTICE)];
                     stderr := [warning];
                     ending := SysExit 0 |}
              end
            else
              match load_prompt (prompt args) with
              | Raise e => failed [] [] (FailedWith e)
              | Ok prompt_template =>
                  match select_articles_with_claude articles_data
                          prompt_template api_key with
                  | (reqs, inl f) => failed reqs [] f
                  | (reqs, inr result) =>
                      match write_file (output args) result with
                      | Raise e => failed reqs [] (FailedWith e)
                      | Ok _ =>
                          {| requests := reqs;
                             written := [(output args, result)];
                             stderr := [];
                             ending := Returned |}
                      end
                  end
              end
        end
    end.

End Select.

(** ** Sample inputs *)


Definition empty_document (path : str) : result articles_data :=
  Ok (DataObject (Some (Sized []))).


Definition sample_prompt (path : str) : result str :=
  Ok (py "Select the three most important articles.").

Definition sample_reply (key : str) (req : request) : api_outcome :=
  ApiReply [mkBlock (py "text") (py "1. A title");
            mkBlock (py "tool_use") [];
            mkBlock (py "text") (py " - https://a.example/1")].

Definition every_path (path : str) : bool := true.

Definition accepting_write (path text : str) : result unit := Ok tt.

End SelectArticles.

(** * Properties of fetch_articles.py *)

Module FetchArticlesFacts.

Import FetchArticles.

Implicit Types (l : list Article) (a : Article) (seen : gset str).

Lemma truthy_true (s : str) : truthy s = true <-> s ≠ [].
Proof.
  unfold truthy. rewrite negb_true_iff, bool_decide_eq_false. done.
Qed.

Lemma truthy_false (s : str) : truthy s = false <-> s = [].
Proof.
  unfold truthy. rewrite negb_false_iff, bool_decide_eq_true. done.
Qed.

(** ** The de-duplicator *)

Lemma foldl_dedup_turn seen acc l :
  (foldl dedup_turn (seen, acc) l).2 = acc ++ dedup_from seen l.
Proof.
  revert seen acc. induction l as [|a l IH]; intros seen acc; simpl.
  - by rewrite app_nil_r.
  - unfold dedup_turn at 2. simpl.
    destruct (truthy (url a) && bool_decide (url a ∉ seen)).
    + rewrite IH, <- app_assoc. done.
    + apply IH.
Qed.

Lemma deduplicate_articles_unfold l :
  deduplicate_articles l = dedup_from ∅ l.
Proof. unfold deduplicate_articles. by rewrite foldl_dedup_turn. Qed.

Lemma dedup_from_elem seen l a :
  a ∈ dedup_from seen l -> a ∈ l ∧ url a ≠ [] ∧ url a ∉ seen.
Proof.
  revert seen. induction l as [|b l IH]; intros seen; simpl.
  - intros H. by apply elem_of_nil in H.
  - destruct (truthy (url b) && bool_decide (url b ∉ seen)) eqn:E.
    + apply andb_true_iff in E as [E1 E2].
      apply truthy_true in E1. apply bool_decide_eq_true in E2.
      intros [->|H]%elem_of_cons.
      * split_and!; [left | done | done].
      * apply IH in H as (? & ? & Hn). split_and!; [by right | done |].
        intros Hs. apply Hn. apply elem_of_union. by right.
    + intros H. apply IH in H as (? & ? & ?). split_and!; [by right | done..].
Qed.

Lemma dedup_from_NoDup seen l : NoDup (url <$> dedup_from seen l).
Proof.
  revert seen. induction l as [|b l IH]; intros seen; simpl.
  - constructor.
  - destruct (truthy (url b) && bool_decide (url b ∉ seen)); [|apply IH].
    simpl. constructor; [|apply IH].
    intros (c & Hc & Hin)%list_elem_of_fmap.
    apply dedup_from_elem in Hin as (_ & _ & Hn).
    apply Hn. rewrite <- Hc. apply elem_of_union. left.
    by apply elem_of_singleton.
Qed.

Lemma dedup_from_sublist seen l : sublist (dedup_from seen l) l.
Proof.
  revert seen. induction l as [|b l IH]; intros seen; simpl.
  - constructor.
  - destruct (truthy (url b) && bool_decide (url b ∉ seen)).
    + by apply sublist_skip.
    + by apply sublist_cons.
Qed.

Lemma dedup_from_idem seen l :
  dedup_from seen (dedup_from seen l) = dedup_from seen l.
Proof.
  revert seen. induction l as [|b l IH]; intros seen; simpl; [done|].
  destruct (truthy (url b) && bool_decide (url b ∉ seen)) eqn:E.
  - simpl. rewrite E. f_equal. apply IH.
  - apply IH.
Qed.

(** Articles without a url are skipped by the guard and leave the set of
    seen urls as it was. *)
Lemma dedup_from_filter_nonempty seen l :
  dedup_from seen (filter (fun a => url a ≠ []) l) = dedup_from seen l.
Proof.
  revert seen. induction l as [|b l IH]; intros seen; [done|].
  rewrite filter_cons. destruct (decide (url b ≠ [])) as [Hb|Hb]; simpl.
  - destruct (truthy (url b) && bool_decide (url b ∉ seen)); by rewrite IH.
  - assert (truthy (url b) = false) as ->.
    { apply not_true_is_false. by rewrite truthy_true. }
    simpl. apply IH.
Qed.

(** The set of seen urls agrees, on non-empty urls, with the urls of the
    articles already visited. *)
Lemma dedup_from_first_seen seen (p l : list Article) :
  (forall u, u ≠ [] -> u ∈ seen <-> u ∈ url <$> p) ->
  dedup_from seen l =
  mjoin (imap (fun i a => if is_first_seen (p ++ l) (length p + i) a
                          then [a] else []) l).
Proof.
  revert seen p. induction l as [|b l IH]; intros seen p Hseen; [done|].
  assert (Htail : forall seen',
    (forall u, u ≠ [] -> u ∈ seen' <-> u ∈ url <$> (p ++ [b])) ->
    dedup_from seen' l =
    mjoin (imap ((fun i a => if is_first_seen (p ++ b :: l) (length p + i) a
                             then [a] else []) ∘ S) l)).
  { intros seen' Hs. rewrite (IH seen' (p ++ [b]) Hs).
    f_equal. apply imap_ext. intros i a _. simpl.
    rewrite <- app_assoc, length_app. simpl.
    by replace (length p + 1 + i)%nat with (length p + S i)%nat by lia. }
  cbn [dedup_from imap mjoin list_join]. unfold is_first_seen at 1.
  rewrite Nat.add_0_r, take_app_length.
  destruct (truthy (url b)) eqn:Hb.
  - apply truthy_true in Hb.
    destruct (decide (url b ∈ seen)) as [Hin|Hin].
    + rewrite (bool_decide_eq_false_2 (url b ∉ seen))
        by (intros Hn; by apply Hn).
      rewrite (bool_decide_eq_false_2 (url b ∉ url <$> p)).
      2:{ intros Hn. apply Hn. by apply Hseen. }
      simpl. apply Htail.
      intros u Hu. rewrite fmap_app, elem_of_app. simpl.
      rewrite list_elem_of_singleton, Hseen by done.
      split; [by left|]. intros [?| ->]; [done|]. by apply Hseen.
    + rewrite (bool_decide_eq_true_2 (url b ∉ seen)) by done.
      rewrite (bool_decide_eq_true_2 (url b ∉ url <$> p)).
      2:{ intros Hn. apply Hin. by apply Hseen. }
      simpl. f_equal. apply Htail.
      intros u Hu. rewrite fmap_app, elem_of_app. simpl.
      rewrite elem_of_union, elem_of_singleton, list_elem_of_singleton.
      rewrite Hseen by done. tauto.
  - simpl. apply Htail.
    intros u Hu. rewrite fmap_app, elem_of_app. simpl.
    rewrite list_elem_of_singleton, Hseen by done.
    split; [by left|]. intros [?| ->]; [done|].
    apply truthy_true in Hu. congruence.
Qed.

Lemma deduplicate_articles_first_seen l :
  deduplicate_articles l = first_seen_articles l.
Proof.
  rewrite deduplicate_articles_unfold.
  rewrite (dedup_from_first_seen ∅ [] l); [done|].
  intros u _. simpl. split; intros H.
  - by apply not_elem_of_empty in H.
  - by apply elem_of_nil in H.
Qed.

Lemma deduplicate_articles_urls_nonempty l :
  Forall (fun a => url a ≠ []) (deduplicate_articles l).
Proof.
  rewrite deduplicate_articles_unfold. apply Forall_forall.
  intros a Ha. by apply dedup_from_elem in Ha as (_ & ? & _).
Qed.

(** C1, as the specification words it, fails on the code: the one article
    of this batch has an empty url and is not in the output. *)
Lemma dedup_drops_article_without_url :
  no_url_article ∈ [no_url_article; sample "https://a.example/1" "one"]
  ∧ url no_url_article = []
  ∧ deduplicate_articles
      [no_url_article; sample "https://a.example/1" "one"]
    = [sample "https://a.example/1" "one"].
Proof. split_and!; [left | reflexivity | by vm_compute]. Qed.

(** C1, amended: for every input list, no article whose url is empty is in
    the output of [deduplicate_articles] (the guard [if url and ...] skips
    it), and since an empty url is never added to [seen_urls], removing
    these articles from the input beforehand gives the same output. *)
Theorem dedup_skips_articles_without_url l :
  filter (fun a => url a = []) (deduplicate_articles l) = []
  ∧ deduplicate_articles (filter (fun a => url a ≠ []) l)
    = deduplicate_articles l.
Proof.
  split.
  - pose proof (deduplicate_articles_urls_nonempty l) as H.
    induction H as [|a out Ha _ IH]; [done|].
    rewrite filter_cons. by destruct (decide (url a = [])).
  - rewrite !deduplicate_articles_unfold. apply dedup_from_filter_nonempty.
Qed.

(** C3: [deduplicate_articles] returns, in input order, exactly the
    articles that are the first of their non-empty url: an article at
    position [i] stays iff its url is non-empty and no article before [i]
    has that url, whatever its other fields are.  In a batch of five
    articles with non-empty urls where the second and the fourth share
    their url and the urls are otherwise distinct, the output is the
    first, second, third and fifth article. *)
Theorem dedup_keeps_first_occurrence :
  (forall l, deduplicate_articles l = first_seen_articles l
             ∧ sublist (deduplicate_articles l) l)
  ∧ (forall a1 a2 a3 a4 a5,
        url a2 = url a4 ->
        NoDup [url a1; url a2; url a3; url a5] ->
        Forall (fun a => url a ≠ []) [a1; a2; a3; a4; a5] ->
        deduplicate_articles [a1; a2; a3; a4; a5] = [a1; a2; a3; a5]).
Proof.
  split.
  - intros l. split; [apply deduplicate_articles_first_seen|].
    rewrite deduplicate_articles_unfold. apply dedup_from_sublist.
  - intros a1 a2 a3 a4 a5 E24 Hnd Hne.
    rewrite deduplicate_articles_first_seen.
    unfold first_seen_articles, is_first_seen. simpl.
    repeat match goal with
           | H : Forall _ (_ :: _) |- _ =>
               apply Forall_cons in H as [?%truthy_true H]
           end.
    repeat match goal with H : truthy _ = true |- _ => rewrite H end.
    simpl.
    apply NoDup_cons in Hnd as [N1 Hnd]. apply NoDup_cons in Hnd as [N2 Hnd].
    apply NoDup_cons in Hnd as [N3 _].
    apply not_elem_of_cons in N1 as [N12 N1].
    apply not_elem_of_cons in N1 as [N13 N1].
    apply not_elem_of_cons in N1 as [N15 _].
    apply not_elem_of_cons in N2 as [N23 N2].
    apply not_elem_of_cons in N2 as [N25 _].
    apply not_elem_of_cons in N3 as [N35 _].
    rewrite (bool_decide_eq_true_2 (url a2 ∉ [url a1])).
    2:{ rewrite !not_elem_of_cons. split_and!; [congruence|].
        apply not_elem_of_nil. }
    rewrite (bool_decide_eq_true_2 (url a3 ∉ [url a1; url a2])).
    2:{ rewrite !not_elem_of_cons. split_and!; [congruence..|].
        apply not_elem_of_nil. }
    rewrite (bool_decide_eq_false_2 (url a4 ∉ [url a1; url a2; url a3])).
    2:{ intros Hn. apply Hn. rewrite <- E24. right. left. }
    rewrite (bool_decide_eq_true_2
               (url a5 ∉ [url a1; url a2; url a3; url a4])).
    2:{ rewrite !not_elem_of_cons. split_and!; [congruence..|].
        apply not_elem_of_nil. }
    done.
Qed.

Lemma dedup_keeps_first_occurrence_witness :
  deduplicate_articles
    [sample "https://a.example/1" "one"; sample "https://a.example/2" "two";
     sample "https://a.example/3" "three";
     sample "https://a.example/2" "two again";
     sample "https://a.example/5" "five"]
  = [sample "https://a.example/1" "one"; sample "https://a.example/2" "two";
     sample "https://a.example/3" "three"; sample "https://a.example/5" "five"].
Proof.
  apply (proj2 dedup_keeps_first_occurrence).
  - reflexivity.
  - refine (bool_decide_unpack _ _). by vm_compute.
  - refine (bool_decide_unpack _ _). by vm_compute.
Defined.

(** C7: [deduplicate_articles] is idempotent. *)
Theorem dedup_idempotent l :
  deduplicate_articles (deduplicate_articles l) = deduplicate_articles l.
Proof. rewrite !deduplicate_articles_unfold. apply dedup_from_idem. Qed.

(** C10: every article in the output of [deduplicate_articles] has a
    non-empty url, and the urls of the output are pairwise distinct. *)
Theorem dedup_output_urls_nonempty_distinct l :
  Forall (fun a => url a ≠ []) (deduplicate_articles l)
  ∧ NoDup (url <$> deduplicate_articles l).
Proof.
  split; [apply deduplicate_articles_urls_nonempty|].
  rewrite deduplicate_articles_unfold. apply dedup_from_NoDup.
Qed.

(** ** The time-window filter *)

Section FilterFacts.

Variable fromisoformat : str -> option datetime.

Lemma parse_published_aware s d :
  parse_published fromisoformat s = Some d -> exists o, utcoffset d = Some o.
Proof.
  unfold parse_published.
  destruct (fromisoformat _) as [d'|]; [|done].
  intros [= <-]. destruct (utcoffset d') as [o|] eqn:E; simpl; eauto.
Qed.

Lemma foldl_filter_turn_raise cutoff e l :
  foldl (filter_turn fromisoformat cutoff) (Raise e) l = Raise e.
Proof. induction l as [|a l IH]; [done|]. simpl. apply IH. Qed.

Lemma str_replace1_app c new (s t : str) :
  str_replace1 c new (s ++ t) = str_replace1 c new s ++ str_replace1 c new t.
Proof. unfold str_replace1. apply bind_app. Qed.

Lemma str_replace1_absent c new (s : str) :
  c ∉ s -> str_replace1 c new s = s.
Proof.
  unfold str_replace1. induction s as [|x s IH]; [done|].
  intros [Hx Hs]%not_elem_of_cons. rewrite bind_cons, IH by done.
  by rewrite bool_decide_eq_false_2 by congruence.
Qed.

(** A date that ends in its only "Z" is parsed as the same text with
    "+00:00" in place of the "Z". *)
Lemma parse_published_trailing_Z (p : str) :
  90%N ∉ p ->
  parse_published fromisoformat (p ++ py "Z")
  = parse_published fromisoformat (p ++ py "+00:00").
Proof.
  intros Hp. unfold parse_published.
  rewrite !str_replace1_app, !str_replace1_absent by done.
  reflexivity.
Qed.

(** The loop of the filter, for a cutoff that the clock and the window
    define. *)
Lemma foldl_filter_turn now hours cutoff acc l :
  utcoffset cutoff = Some 0 ->
  wall cutoff = now - hours * US_PER_HOUR ->
  foldl (filter_turn fromisoformat cutoff) (Ok acc) l
  = Ok (acc ++ filter (fun a => in_window fromisoformat now hours a = true) l).
Proof.
  intros Hoff Hwall. revert acc.
  induction l as [|a l IH]; intros acc; cbn [foldl].
  - by rewrite app_nil_r.
  - rewrite filter_cons. unfold filter_turn at 2.
    cbn [mbind result_bind].
    assert (Hstep :
      (if negb (truthy (published_date a)) then Ok (acc ++ [a])
       else match parse_published fromisoformat (published_date a) with
            | Some pub_date =>
                keep ← datetime_ge pub_date cutoff;
                Ok (if keep : bool then acc ++ [a] else acc)
            | None => Ok (acc ++ [a])
            end)
      = Ok (if in_window fromisoformat now hours a then acc ++ [a] else acc)).
    { unfold in_window.
      destruct (published_date a) as [|c s] eqn:Hd; [done|].
      assert (truthy (c :: s) = true) as -> by by apply truthy_true.
      cbn [negb].
      destruct (parse_published fromisoformat (c :: s)) as [d|] eqn:Hp;
        [|done].
      destruct (parse_published_aware _ _ Hp) as [o Ho].
      unfold datetime_ge, utc_instant. rewrite Ho, Hoff, Hwall.
      cbn [mbind result_bind default]. by rewrite Z.sub_0_r. }
    rewrite Hstep.
    destruct (in_window fromisoformat now hours a).
    + rewrite decide_True by done. rewrite IH, <- app_assoc. done.
    + rewrite decide_False by done. apply IH.
Qed.

Lemma foldl_filter_turn_sublist cutoff acc l out :
  foldl (filter_turn fromisoformat cutoff) (Ok acc) l = Ok out ->
  exists kept, out = acc ++ kept ∧ sublist kept l.
Proof.
  revert acc. induction l as [|a l IH]; intros acc; cbn [foldl].
  - intros [= <-]. exists []. by rewrite app_nil_r.
  - unfold filter_turn at 2. cbn [mbind result_bind].
    assert (Hkeep : foldl (filter_turn fromisoformat cutoff)
                      (Ok (acc ++ [a])) l = Ok out ->
                    exists kept, out = acc ++ kept ∧ sublist kept (a :: l)).
    { intros (kept & -> & Hs)%IH. exists (a :: kept).
      rewrite <- app_assoc. split; [done|]. by apply sublist_skip. }
    assert (Hdrop : foldl (filter_turn fromisoformat cutoff) (Ok acc) l
                    = Ok out ->
                    exists kept, out = acc ++ kept ∧ sublist kept (a :: l)).
    { intros (kept & -> & Hs)%IH. exists kept.
      split; [done|]. by apply sublist_cons. }
    destruct (negb (truthy (published_date a))); [done|].
    destruct (parse_published fromisoformat (published_date a)) as [d|];
      [|done].
    destruct (datetime_ge d cutoff) as [[]|e]; cbn [mbind result_bind];
      [done..|].
    by rewrite foldl_filter_turn_raise.
Qed.

Lemma filter_recent_articles_sublist now l hours out :
  filter_recent_articles fromisoformat now l hours = Ok out -> sublist out l.
Proof.
  unfold filter_recent_articles.
  destruct (timedelta_hours hours) as [td|e]; [|done].
  cbn [mbind result_bind].
  destruct (datetime_sub (datetime_now_utc now) td) as [c|e]; [|done].
  cbn [mbind result_bind].
  intros (kept & -> & Hs)%foldl_filter_turn_sublist. done.
Qed.

Lemma timedelta_hours_in_range now hours :
  0 ≤ now ≤ MAX_WALL ->
  0 ≤ now - hours * US_PER_HOUR ≤ MAX_WALL ->
  timedelta_hours hours = Ok (hours * US_PER_HOUR).
Proof.
  intros Hnow Hcut. unfold timedelta_hours.
  assert (-999999999 ≤ (hours * US_PER_HOUR) `div` US_PER_DAY ≤ 999999999)
    as [H1 H2].
  { unfold MAX_WALL, US_PER_DAY, US_PER_HOUR in *.
    split.
    - apply Z.div_le_lower_bound; lia.
    - apply Z.div_le_upper_bound; lia. }
  apply Z.leb_le in H1, H2. by rewrite H1, H2.
Qed.

End FilterFacts.

(** C2, as the specification words it, fails on the code for a window so
    long that the clock minus the window is before the year 1: the cutoff
    cannot be built, [filter_recent_articles] raises [OverflowError] and
    keeps nothing, not even an article without a date. *)
Lemma filter_raises_when_cutoff_not_representable :
  0 ≤ sample_now ≤ MAX_WALL
  ∧ in_window sample_fromisoformat sample_now 100000000
      (dated "https://a.example/1" "") = true
  ∧ filter_recent_articles sample_fromisoformat sample_now
      [dated "https://a.example/1" ""] 100000000
    = Raise (Exn OverflowError (py "date value out of range")).
Proof. split_and!; [by vm_compute.. | by vm_compute]. Qed.

(** C2, amended: when the clock reads a datetime and the clock minus
    [windowHours] is a datetime too (years 1 to 9999),
    [filter_recent_articles] returns exactly the articles, in input order,
    whose [published_date] is empty, or does not parse, or parses (every "Z"
    read as "+00:00", a naive result taken as UTC) to an instant not before
    the clock minus [windowHours]; a date that ends in its only "Z" is
    parsed as if it ended in "+00:00".  When the clock minus [windowHours]
    is not a datetime the function raises [OverflowError]. *)
Theorem filter_recent_articles_window
    (fromisoformat : str -> option datetime) (now : Z) l (hours : Z) :
  0 ≤ now ≤ MAX_WALL ->
  (0 ≤ now - hours * US_PER_HOUR ≤ MAX_WALL ->
   filter_recent_articles fromisoformat now l hours
   = Ok (filter (fun a => in_window fromisoformat now hours a = true) l))
  ∧ (¬ (0 ≤ now - hours * US_PER_HOUR ≤ MAX_WALL) ->
     exists e, filter_recent_articles fromisoformat now l hours = Raise e
               ∧ exn_class e = OverflowError)
  ∧ (forall p : str, 90%N ∉ p ->
       parse_published fromisoformat (p ++ py "Z")
       = parse_published fromisoformat (p ++ py "+00:00")).
Proof.
  intros Hnow. split_and!.
  - intros Hcut. unfold filter_recent_articles.
    rewrite (timedelta_hours_in_range now hours) by done.
    cbn [mbind result_bind]. unfold datetime_sub, datetime_now_utc.
    cbn [wall utcoffset].
    destruct Hcut as [H1%Z.leb_le H2%Z.leb_le]. rewrite H1, H2.
    cbn [andb mbind result_bind].
    by rewrite (foldl_filter_turn fromisoformat now hours).
  - intros Hcut. unfold filter_recent_articles, timedelta_hours.
    destruct (_ && _); cbn [mbind result_bind]; [|eauto].
    unfold datetime_sub, datetime_now_utc. cbn [wall utcoffset].
    destruct (0 <=? now - hours * US_PER_HOUR) eqn:E1;
      destruct (now - hours * US_PER_HOUR <=? MAX_WALL) eqn:E2;
      cbn [andb mbind result_bind]; eauto.
    exfalso. apply Hcut. split; [by apply Z.leb_le | by apply Z.leb_le].
  - apply parse_published_trailing_Z.
Qed.

Lemma filter_recent_articles_window_witness :
  filter_recent_articles sample_fromisoformat sample_now
    [dated "https://a.example/1" "2026-11-01T00:00:00Z";
     dated "https://a.example/2" "2026-11-03T00:00:00";
     dated "https://a.example/3" "soon";
     dated "https://a.example/4" ""] 48
  = Ok [dated "https://a.example/2" "2026-11-03T00:00:00";
        dated "https://a.example/3" "soon";
        dated "https://a.example/4" ""].
Proof.
  assert (H0 : 0 ≤ sample_now ≤ MAX_WALL) by by vm_compute.
  assert (H1 : 0 ≤ sample_now - 48 * US_PER_HOUR ≤ MAX_WALL) by by vm_compute.
  rewrite (proj1 (filter_recent_articles_window sample_fromisoformat
                    sample_now _ 48 H0) H1).
  by vm_compute.
Defined.

(** The scenario of the specification: an article 72 hours old is removed
    by a window of 48 hours and kept by a window of 96 hours. *)
Lemma filter_window_scenario :
  filter_recent_articles sample_fromisoformat sample_now
    [dated "https://a.example/1" "2026-11-01T00:00:00Z"] 48 = Ok []
  ∧ filter_recent_articles sample_fromisoformat sample_now
      [dated "https://a.example/1" "2026-11-01T00:00:00Z"] 96
    = Ok [dated "https://a.example/1" "2026-11-01T00:00:00Z"].
Proof. split; by vm_compute. Qed.

(** C8: the output of [deduplicate_articles] and every output of
    [filter_recent_articles] is a subsequence of the input: its elements
    are articles of the input, each with its six fields as they were, in
    input order. *)
Theorem stages_return_subsequences
    (fromisoformat : str -> option datetime) (now : Z) l (hours : Z) :
  sublist (deduplicate_articles l) l
  ∧ (forall out,
       filter_recent_articles fromisoformat now l hours = Ok out ->
       sublist out l).
Proof.
  split.
  - rewrite deduplicate_articles_unfold. apply dedup_from_sublist.
  - apply filter_recent_articles_sublist.
Qed.

Lemma stages_return_subsequences_witness :
  sublist
    [dated "https://a.example/2" "2026-11-03T00:00:00";
     dated "https://a.example/4" ""]
    [dated "https://a.example/1" "2026-11-01T00:00:00Z";
     dated "https://a.example/2" "2026-11-03T00:00:00";
     dated "https://a.example/4" ""].
Proof.
  apply (proj2 (stages_return_subsequences sample_fromisoformat sample_now
                  _ 48)).
  by vm_compute.
Defined.

(** ** Tag removal *)

Lemma re_sub_tags_sublist (s : str) :
  sublist (re_sub_tags s) s ∧ sublist (skip_tag s) s.
Proof.
  induction s as [|c t [IH1 IH2]]; [split; constructor|].
  split; simpl.
  - destruct (bool_decide (c = LT) && tag_opens t).
    + by apply sublist_cons.
    + by apply sublist_skip.
  - destruct (bool_decide (c = GT)); by apply sublist_cons.
Qed.

Lemma tag_opens_no_GT (t : str) : GT ∉ t -> tag_opens t = false.
Proof.
  destruct t as [|c t']; [done|]. intros [_ H]%not_elem_of_cons. simpl.
  rewrite (bool_decide_eq_false_2 (GT ∈ t')) by done. apply andb_false_r.
Qed.

Lemma tag_opens_app (r x : str) :
  tag_opens r = true -> tag_opens (r ++ x) = true.
Proof.
  destruct r as [|c r']; [done|]. simpl.
  intros [H1 H2%bool_decide_eq_true]%andb_true_iff. rewrite H1. simpl.
  apply bool_decide_eq_true. apply elem_of_app. by left.
Qed.

Lemma tag_opens_re_sub_tags (t : str) :
  tag_opens t = false -> tag_opens (re_sub_tags t) = false.
Proof.
  destruct t as [|c t']; [done|]. simpl.
  destruct (decide (c = GT)) as [->|Hc].
  - intros _. case_bool_decide as E; [discriminate E|]. done.
  - rewrite (bool_decide_eq_false_2 (c = GT)) by done. simpl.
    intros Hn%bool_decide_eq_false.
    apply (tag_opens_no_GT (re_sub_tags (c :: t'))).
    intros Hin.
    apply (fun H => elem_of_sublist _ _ _ H
                      (proj1 (re_sub_tags_sublist (c :: t')))) in Hin.
    apply elem_of_cons in Hin as [?|?]; [congruence|done].
Qed.

Lemma re_sub_tags_tag_free (s : str) :
  tag_free (re_sub_tags s) ∧ tag_free (skip_tag s).
Proof.
  induction s as [|c t [IH1 IH2]].
  - split; intros [|??] r H; discriminate H.
  - split; simpl.
    + destruct (bool_decide (c = LT) && tag_opens t) eqn:E; [done|].
      intros [|x p] r H; simplify_eq/=.
      * by apply tag_opens_re_sub_tags.
      * by eapply IH1.
    + by destruct (bool_decide (c = GT)).
Qed.

Lemma tag_free_take (n : nat) (out : str) :
  tag_free out -> tag_free (take n out).
Proof.
  intros H p r E.
  destruct (tag_opens r) eqn:Hr; [|done].
  rewrite <- (H p (r ++ drop n out)).
  - symmetry. by apply tag_opens_app.
  - rewrite <- (take_drop n out) at 1. rewrite E, <- app_assoc. done.
Qed.

Lemma tag_free_no_tag (out : str) : tag_free out -> ¬ contains_tag out.
Proof.
  intros H (p & m & q & -> & body & -> & Hne & Hgt).
  assert (E : p ++ (LT :: body ++ [GT]) ++ q
              = p ++ LT :: (body ++ [GT] ++ q)).
  { simpl. by rewrite <- app_assoc. }
  apply H in E.
  destruct body as [|c body']; [done|]. simpl in E.
  apply not_elem_of_cons in Hgt as [Hc Hb].
  apply andb_false_iff in E as [E|E].
  - apply negb_false_iff, bool_decide_eq_true in E. congruence.
  - apply bool_decide_eq_false in E. apply E.
    apply elem_of_app. right. left.
Qed.

Lemma guardian_abstract_eq entry :
  guardian_abstract entry
  = str_prefix 500 (re_sub_tags (default [] (entry_summary entry))).
Proof.
  unfold guardian_abstract, str_prefix, py_len.
  destruct (500 <? _) eqn:E; [done|].
  apply Z.ltb_ge in E. symmetry. apply take_ge. lia.
Qed.

Lemma guardian_abstract_ok entry :
  py_len (guardian_abstract entry) ≤ 500
  ∧ ¬ contains_tag (guardian_abstract entry).
Proof.
  rewrite guardian_abstract_eq. unfold str_prefix, py_len. split.
  - rewrite length_take. lia.
  - apply tag_free_no_tag, tag_free_take, re_sub_tags_tag_free.
Qed.

(** ** The adapters *)

Lemma append_each_Forall {X} (P : Article -> Prop)
    (mk : X -> result Article) acc (xs : list X) :
  (forall x a, mk x = Ok a -> P a) ->
  Forall P acc -> Forall P (append_each mk acc xs).1.
Proof.
  intros Hmk. revert acc. induction xs as [|x xs IH]; intros acc Hacc; simpl.
  - done.
  - destruct (mk x) as [a|e] eqn:E; [|done].
    apply IH. apply Forall_app. split; [done|].
    constructor; [by eapply Hmk|constructor].
Qed.

Lemma feed_turn_Forall (P : Article -> Prop) parse name extract mk st u :
  (forall sec x a, mk sec x = Ok a -> P a) ->
  Forall P st.1 -> Forall P (feed_turn parse name extract mk st u).1.
Proof.
  intros Hmk Hst. unfold feed_turn, feed_try.
  destruct (parse u) as [entries|e]; [|done].
  pose proof (append_each_Forall P (mk (extract u)) st.1 entries
                (Hmk (extract u)) Hst) as H.
  by destruct (append_each _ _ _) as [? []].
Qed.

Lemma foldl_feed_turn_Forall (P : Article -> Prop)
    parse name extract mk st (feeds : list str) :
  (forall sec x a, mk sec x = Ok a -> P a) ->
  Forall P st.1 ->
  Forall P (foldl (feed_turn parse name extract mk) st feeds).1.
Proof.
  intros Hmk. revert st.
  induction feeds as [|u feeds IH]; intros st Hst; [done|].
  simpl. apply IH. by apply feed_turn_Forall.
Qed.

(** C5: the abstract the Guardian adapter stores is the raw summary with
    every match of the tag pattern removed, cut to its first 500
    characters: it holds at most 500 characters and no tag, it is computed
    before the article is built, every article the adapter returns has
    such an abstract, and the summary "<p>Hello <b>world</b></p>" is
    stored as "Hello world". *)
Theorem guardian_abstract_stripped_and_cut :
  (forall entry,
      guardian_abstract entry
      = str_prefix 500 (re_sub_tags (default [] (entry_summary entry)))
      ∧ py_len (guardian_abstract entry) ≤ 500
      ∧ ¬ contains_tag (guardian_abstract entry))
  ∧ (forall sec entry,
        match guardian_article sec entry with
        | Ok a => abstract a = guardian_abstract entry
        | Raise e => entry_date entry = Raise e
        end)
  ∧ (forall parse,
        Forall (fun a => py_len (abstract a) ≤ 500
                         ∧ ¬ contains_tag (abstract a))
               (fetch_guardian_articles parse).1)
  ∧ abstract <$>
      (fetch_guardian_articles
         (fun u => if bool_decide (u = py "https://www.theguardian.com/world/rss")
                   then Ok [mkFeedEntry (Some (py "A title"))
                              (Some (py "<p>Hello <b>world</b></p>"))
                              (Some (py "https://www.theguardian.com/a"))
                              None None]
                   else Ok [])).1
    = [py "Hello world"].
Proof.
  split_and!.
  - intros entry. split; [apply guardian_abstract_eq|].
    apply guardian_abstract_ok.
  - intros sec entry. unfold guardian_article.
    by destruct (entry_date entry).
  - intros parse. unfold fetch_guardian_articles.
    apply foldl_feed_turn_Forall; [|constructor].
    intros sec x a. unfold guardian_article.
    destruct (entry_date x); [|done]. cbn [mbind result_bind].
    intros [= <-]. apply guardian_abstract_ok.
  - by vm_compute.
Qed.

(** When every section fails to fetch or to parse, the topics adapter
    returns no article and one line on stderr per section. *)
Lemma fetch_nyt_articles_all_caught requests_get key :
  (forall u, exists e,
      requests_get u key = Raise e
      ∧ (exn_class e = RequestException ∨ exn_class e = JSONDecodeError)) ->
  exists errs, fetch_nyt_articles requests_get key = Ok ([], errs)
               ∧ length errs = 3%nat.
Proof.
  intros H. unfold fetch_nyt_articles, NYT_SECTIONS. cbn [foldl].
  assert (Hturn : forall arts errs sec, exists line,
            nyt_section requests_get key (Ok (arts, errs)) sec
            = Ok (arts, errs ++ [line])).
  { intros arts errs sec. unfold nyt_section, nyt_try.
    cbn [mbind result_bind].
    destruct (H (py "https://api.nytimes.com/svc/topstories/v2/" ++ sec
                 ++ py ".json")) as (e & -> & [Hc|Hc]); rewrite Hc; eauto. }
  destruct (Hturn [] [] (py "technology")) as [l1 ->].
  destruct (Hturn [] ([] ++ [l1]) (py "business")) as [l2 ->].
  destruct (Hturn [] (([] ++ [l1]) ++ [l2]) (py "world")) as [l3 ->].
  eexists. split; [reflexivity|done].
Qed.

(** C4 fails on the code: a response body whose "results" member is null
    makes [fetch_nyt_articles] raise [TypeError], which neither of its
    [except] clauses catches; the articles of the section before are lost
    with it, and [main] ends with the exception before the feed adapters,
    which have articles to contribute, are called. *)
Theorem fetch_nyt_articles_raises_on_null_results :
  fetch_nyt_articles null_results_get (py "key")
  = Raise (Exn TypeError (py "object is not iterable"))
  ∧ main null_results_get one_entry_parse sample_fromisoformat
         sample_isoformat (Some (py "key")) sample_now sample_now
         always_open (mkCli None None)
    = ([], Uncaught (Exn TypeError (py "object is not iterable")))
  ∧ length (fetch_bloomberg_articles one_entry_parse).1 = 3%nat
  ∧ length (fetch_guardian_articles one_entry_parse).1 = 3%nat.
Proof. split_and!; by vm_compute. Qed.

(** ** The entry point *)



(** * Further properties of fetch_articles.py *)

(** ** More on the de-duplicator *)

Lemma dedup_from_urls seen l (u : str) :
  u ∈ (url <$> dedup_from seen l)
  <-> u ≠ [] ∧ (u ∉ seen) ∧ u ∈ (url <$> l).
Proof.
  revert seen. induction l as [|b l IH]; intros seen.
  - simpl. split; [by intros ?%elem_of_nil | by intros (_ & _ & ?%elem_of_nil)].
  - cbn [dedup_from]. rewrite fmap_cons, elem_of_cons.
    destruct (truthy (url b)) eqn:Hb; cbn [andb].
    + apply truthy_true in Hb. case_bool_decide as Hs.
      * rewrite fmap_cons, elem_of_cons, IH, not_elem_of_union,
          not_elem_of_singleton.
        destruct (decide (u = url b)) as [->|Hne]; [tauto|]. tauto.
      * rewrite IH.
        split; [tauto|]. intros (? & ? & [->|?]); [done|tauto].
    + apply truthy_false in Hb. rewrite IH.
      split; [tauto|]. intros (? & ? & [->|?]); [done|tauto].
Qed.

Lemma dedup_from_fixed seen l :
  Forall (fun a => url a ≠ []) l -> NoDup (url <$> l) ->
  (forall a, a ∈ l -> url a ∉ seen) ->
  dedup_from seen l = l.
Proof.
  revert seen. induction l as [|b l IH]; intros seen Hne Hnd Hseen; [done|].
  apply Forall_cons in Hne as [Hb Hne]. rewrite fmap_cons in Hnd.
  apply NoDup_cons in Hnd as [Hbl Hnd]. cbn [dedup_from].
  assert (truthy (url b) = true) as -> by by apply truthy_true.
  rewrite bool_decide_eq_true_2 by (apply Hseen; left). cbn [andb].
  f_equal. apply IH; [done..|].
  intros a Ha. rewrite not_elem_of_union, not_elem_of_singleton. split.
  - intros E. apply Hbl. rewrite <- E. by apply list_elem_of_fmap_2.
  - apply Hseen. by right.
Qed.

Lemma dedup_from_more_seen (X seen : gset str) l :
  dedup_from (X ∪ seen) l
  = filter (fun a => url a ∉ X) (dedup_from seen l).
Proof.
  revert seen. induction l as [|b l IH]; intros seen; [done|].
  cbn [dedup_from].
  destruct (truthy (url b)) eqn:Hb; cbn [andb]; [|apply IH].
  destruct (decide (url b ∈ seen)) as [Hs|Hs].
  - rewrite (bool_decide_eq_false_2 (url b ∉ seen)) by (intros H; by apply H).
    rewrite bool_decide_eq_false_2; [apply IH|].
    intros H. apply H. apply elem_of_union. by right.
  - rewrite (bool_decide_eq_true_2 (url b ∉ seen)) by done.
    rewrite filter_cons. destruct (decide (url b ∈ X)) as [Hx|Hx].
    + rewrite bool_decide_eq_false_2.
      2:{ intros H. apply H. apply elem_of_union. by left. }
      rewrite decide_False by (intros H; by apply H).
      rewrite <- IH. f_equal. apply set_eq. intros v.
      rewrite !elem_of_union, elem_of_singleton.
      split; [tauto|]. intros [?|[->|?]]; tauto.
    + rewrite bool_decide_eq_true_2.
      2:{ rewrite not_elem_of_union. tauto. }
      rewrite decide_True by done. f_equal.
      rewrite <- IH. f_equal. apply set_eq. intros v.
      rewrite !elem_of_union, elem_of_singleton. tauto.
Qed.

Lemma dedup_from_app seen l1 l2 :
  dedup_from seen (l1 ++ l2)
  = dedup_from seen l1
    ++ dedup_from (list_to_set (url <$> dedup_from seen l1) ∪ seen) l2.
Proof.
  revert seen. induction l1 as [|b l1 IH]; intros seen.
  - simpl. f_equal. apply set_eq. intros v.
    rewrite elem_of_union. split; [tauto|].
    intros [H|?]; [|done]. by apply not_elem_of_empty in H.
  - cbn [app dedup_from].
    destruct (truthy (url b) && bool_decide (url b ∉ seen)); [|apply IH].
    rewrite IH. cbn [app]. f_equal. f_equal. f_equal.
    rewrite fmap_cons, list_to_set_cons. apply set_eq. intros v.
    rewrite !elem_of_union, elem_of_singleton. tauto.
Qed.

Lemma filter_ext_in {A} (P Q : A -> Prop)
    `{!forall x, Decision (P x), !forall x, Decision (Q x)} (l : list A) :
  (forall x, x ∈ l -> P x <-> Q x) -> filter P l = filter Q l.
Proof.
  induction l as [|x l IH]; intros Hext; [done|].
  rewrite !filter_cons, IH by (intros y Hy; apply Hext; by right).
  destruct (decide (P x)) as [Hp|Hp].
  - rewrite decide_True; [done|]. apply Hext; [left|done].
  - rewrite decide_False; [done|]. intros Hq. apply Hp, Hext; [left|done].
Qed.

(** X1: the urls of the output of [deduplicate_articles] are exactly the
    non-empty urls of the input: no identity key is lost. *)
Theorem dedup_keeps_every_url l (u : str) :
  u ∈ (url <$> deduplicate_articles l) <-> u ≠ [] ∧ u ∈ (url <$> l).
Proof.
  rewrite deduplicate_articles_unfold, dedup_from_urls.
  split; [tauto|]. intros [? ?]. split_and!; [done| |done].
  apply not_elem_of_empty.
Qed.

(** X2: [deduplicate_articles] returns its input unchanged exactly when
    every url of the input is non-empty and no url occurs twice. *)
Theorem dedup_fixed_points l :
  (deduplicate_articles l = l)
  <-> (Forall (fun a => url a ≠ []) l ∧ NoDup (url <$> l)).
Proof.
  split.
  - intros E. rewrite <- E. split.
    + apply deduplicate_articles_urls_nonempty.
    + rewrite deduplicate_articles_unfold. apply dedup_from_NoDup.
  - intros [Hne Hnd]. rewrite deduplicate_articles_unfold.
    apply dedup_from_fixed; [done..|]. intros a _. apply not_elem_of_empty.
Qed.

(** X3: de-duplicating two batches put together gives the de-duplicated
    first batch followed by the de-duplicated second batch without the
    articles whose url occurs in the first. *)
Theorem dedup_of_concatenation l1 l2 :
  deduplicate_articles (l1 ++ l2)
  = deduplicate_articles l1
    ++ filter (fun a => url a ∉ url <$> l1) (deduplicate_articles l2).
Proof.
  rewrite !deduplicate_articles_unfold, dedup_from_app. f_equal.
  rewrite dedup_from_more_seen.
  apply filter_ext_in. intros a Ha.
  apply dedup_from_elem in Ha as (_ & Hne & _).
  rewrite elem_of_list_to_set, dedup_from_urls.
  split.
  - intros H Hin. apply H. split_and!; [done| |done]. apply not_elem_of_empty.
  - intros H (_ & _ & Hin). by apply H.
Qed.

(** ** More on the time-window filter *)

(** Whether the filter returns does not depend on the articles: once it
    returns for one list, it returns the articles in the window for every
    list. *)
Lemma filter_recent_articles_returns
    (fromisoformat : str -> option datetime) (now : Z) l (hours : Z) out :
  filter_recent_articles fromisoformat now l hours = Ok out ->
  forall l', filter_recent_articles fromisoformat now l' hours
             = Ok (filter (fun a => in_window fromisoformat now hours a = true)
                          l').
Proof.
  unfold filter_recent_articles, timedelta_hours.
  destruct (_ && _); cbn [mbind result_bind]; [|done].
  unfold datetime_sub, datetime_now_utc. cbn [wall utcoffset].
  destruct (_ && _); cbn [mbind result_bind]; [|done].
  intros _ l'. by rewrite (foldl_filter_turn fromisoformat now hours).
Qed.

Lemma filter_recent_articles_raises
    (fromisoformat : str -> option datetime) (now : Z) l (hours : Z) e :
  filter_recent_articles fromisoformat now l hours = Raise e ->
  forall l', filter_recent_articles fromisoformat now l' hours = Raise e.
Proof.
  unfold filter_recent_articles, timedelta_hours.
  destruct (_ && _); cbn [mbind result_bind]; [|done].
  unfold datetime_sub, datetime_now_utc. cbn [wall utcoffset].
  destruct (_ && _); cbn [mbind result_bind]; [|done].
  by rewrite (foldl_filter_turn fromisoformat now hours).
Qed.

Lemma in_window_mono (fromisoformat : str -> option datetime)
    (now h1 h2 : Z) a :
  h1 ≤ h2 ->
  in_window fromisoformat now h1 a = true ->
  in_window fromisoformat now h2 a = true.
Proof.
  intros Hle. unfold in_window.
  destruct (published_date a); [done|].
  destruct (parse_published _ _); [|done].
  rewrite !Z.leb_le. unfold US_PER_HOUR. lia.
Qed.

Lemma sublist_filter_impl {A} (P Q : A -> Prop)
    `{!forall x, Decision (P x), !forall x, Decision (Q x)} (l : list A) :
  (forall x, P x -> Q x) -> sublist (filter P l) (filter Q l).
Proof.
  intros Himp. induction l as [|x l IH]; [constructor|].
  rewrite !filter_cons. destruct (decide (P x)) as [Hp|Hp].
  - rewrite decide_True by by apply Himp. by apply sublist_skip.
  - destruct (decide (Q x)); [by apply sublist_cons|done].
Qed.

(** X4: a longer window keeps everything a shorter one keeps: for
    [h1 <= h2] the output for [h1] is a subsequence of the output for
    [h2], taken at the same clock. *)
Theorem filter_monotone_in_window
    (fromisoformat : str -> option datetime) (now : Z) l (h1 h2 : Z)
    out1 out2 :
  h1 ≤ h2 ->
  filter_recent_articles fromisoformat now l h1 = Ok out1 ->
  filter_recent_articles fromisoformat now l h2 = Ok out2 ->
  sublist out1 out2.
Proof.
  intros Hle H1 H2.
  rewrite (filter_recent_articles_returns _ _ _ _ _ H1 l) in H1.
  rewrite (filter_recent_articles_returns _ _ _ _ _ H2 l) in H2.
  injection H1 as <-. injection H2 as <-.
  apply sublist_filter_impl. intros a. by apply in_window_mono.
Qed.

Lemma filter_monotone_in_window_witness :
  sublist []
    [dated "https://a.example/1" "2026-11-01T00:00:00Z"].
Proof.
  apply (filter_monotone_in_window sample_fromisoformat sample_now
           [dated "https://a.example/1" "2026-11-01T00:00:00Z"] 48 96).
  - by vm_compute.
  - by vm_compute.
  - by vm_compute.
Defined.

(** X5: filtering two batches put together is filtering each and putting
    the results together, also when the cutoff cannot be built (both sides
    raise the same exception). *)
Theorem filter_of_concatenation
    (fromisoformat : str -> option datetime) (now : Z) l1 l2 (hours : Z) :
  filter_recent_articles fromisoformat now (l1 ++ l2) hours
  = (out1 ← filter_recent_articles fromisoformat now l1 hours;
     out2 ← filter_recent_articles fromisoformat now l2 hours;
     Ok (out1 ++ out2)).
Proof.
  destruct (filter_recent_articles fromisoformat now l1 hours)
    as [out1|e] eqn:H1.
  - rewrite (filter_recent_articles_returns _ _ _ _ _ H1 (l1 ++ l2)).
    rewrite (filter_recent_articles_returns _ _ _ _ _ H1 l2).
    rewrite (filter_recent_articles_returns _ _ _ _ _ H1 l1) in H1.
    injection H1 as <-. cbn [mbind result_bind]. by rewrite filter_app.
  - by rewrite (filter_recent_articles_raises _ _ _ _ _ H1 (l1 ++ l2)).
Qed.

(** X6: at the same clock and window the filter is idempotent: filtering
    its own output returns that output. *)
Theorem filter_idempotent
    (fromisoformat : str -> option datetime) (now : Z) l (hours : Z) out :
  filter_recent_articles fromisoformat now l hours = Ok out ->
  filter_recent_articles fromisoformat now out hours = Ok out.
Proof.
  intros H. rewrite (filter_recent_articles_returns _ _ _ _ _ H out).
  rewrite (filter_recent_articles_returns _ _ _ _ _ H l) in H.
  injection H as <-. f_equal. rewrite list_filter_filter.
  apply list_filter_iff. tauto.
Qed.

Lemma filter_idempotent_witness :
  filter_recent_articles sample_fromisoformat sample_now
    [dated "https://a.example/2" "2026-11-03T00:00:00";
     dated "https://a.example/4" ""] 48
  = Ok [dated "https://a.example/2" "2026-11-03T00:00:00";
        dated "https://a.example/4" ""].
Proof.
  apply (filter_idempotent sample_fromisoformat sample_now
           [dated "https://a.example/1" "2026-11-01T00:00:00Z";
            dated "https://a.example/2" "2026-11-03T00:00:00";
            dated "https://a.example/4" ""]).
  by vm_compute.
Defined.

(** ** More on the adapters *)

Lemma append_each_acc {X} (mk : X -> result Article) acc (xs : list X) :
  append_each mk acc xs
  = (acc ++ (append_each mk [] xs).1, (append_each mk [] xs).2).
Proof.
  revert acc. induction xs as [|x xs IH]; intros acc; simpl.
  - by rewrite app_nil_r.
  - destruct (mk x) as [a|e]; simpl; [|by rewrite app_nil_r].
    rewrite (IH (acc ++ [a])), (IH [a]). simpl. by rewrite <- app_assoc.
Qed.

Lemma append_each_stops {X} (mk : X -> result Article)
    (good : list X) (bad : X) (rest : list X) arts e :
  Forall2 (fun x a => mk x = Ok a) good arts ->
  mk bad = Raise e ->
  append_each mk [] (good ++ bad :: rest) = (arts, Some e).
Proof.
  intros Hgood Hbad. rewrite append_each_acc.
  induction Hgood as [|x a good arts Hx _ IH]; simpl.
  - by rewrite Hbad.
  - rewrite Hx, append_each_acc. simpl.
    injection IH as IH1 IH2. by rewrite IH1, IH2.
Qed.

Lemma append_each_all {X} (mk : X -> result Article) (xs : list X) arts :
  Forall2 (fun x a => mk x = Ok a) xs arts ->
  append_each mk [] xs = (arts, None).
Proof.
  induction 1 as [|x a xs arts Hx _ IH]; simpl; [done|].
  rewrite Hx, append_each_acc, IH. done.
Qed.

Lemma feed_turn_unit parse name extract mk st u :
  feed_turn parse name extract mk st u
  = (st.1 ++ (feed_turn parse name extract mk ([], []) u).1,
     st.2 ++ (feed_turn parse name extract mk ([], []) u).2).
Proof.
  unfold feed_turn, feed_try. cbn [fst snd].
  destruct (parse u) as [entries|e]; cbn [fst snd].
  - rewrite (append_each_acc _ st.1).
    destruct (append_each _ [] entries) as [arts [e|]]; cbn [fst snd].
    + done.
    + by rewrite app_nil_r.
  - by rewrite app_nil_r.
Qed.

Lemma foldl_feed_turn_units parse name extract mk st (feeds : list str) :
  foldl (feed_turn parse name extract mk) st feeds
  = (st.1 ++ mjoin ((fun u => (feed_turn parse name extract mk ([], []) u).1)
                      <$> feeds),
     st.2 ++ mjoin ((fun u => (feed_turn parse name extract mk ([], []) u).2)
                      <$> feeds)).
Proof.
  revert st. induction feeds as [|u feeds IH]; intros st.
  - simpl. rewrite !app_nil_r. by destruct st.
  - cbn [foldl]. rewrite IH, (feed_turn_unit _ _ _ _ st u). cbn [fst snd].
    rewrite !fmap_cons. cbn [mjoin list_join]. by rewrite <- !app_assoc.
Qed.

(** X7: a feed adapter returns, in feed order, what each feed yields on
    its own (articles and stderr lines): no feed changes what another feed
    contributes; a feed whose parse raises yields no article and one line. *)
Theorem feed_adapters_concatenate_units
    (parse : str -> result (list feed_entry)) :
  fetch_bloomberg_articles parse
  = (mjoin ((fun u => (feed_turn parse (py "Bloomberg")
                         _extract_section_from_url bloomberg_article
                         ([], []) u).1) <$> BLOOMBERG_FEEDS),
     mjoin ((fun u => (feed_turn parse (py "Bloomberg")
                         _extract_section_from_url bloomberg_article
                         ([], []) u).2) <$> BLOOMBERG_FEEDS))
  ∧ fetch_guardian_articles parse
    = (mjoin ((fun u => (feed_turn parse (py "Guardian")
                           _extract_guardian_section guardian_article
                           ([], []) u).1) <$> GUARDIAN_FEEDS),
       mjoin ((fun u => (feed_turn parse (py "Guardian")
                           _extract_guardian_section guardian_article
                           ([], []) u).2) <$> GUARDIAN_FEEDS))
  ∧ (forall name extract mk u,
        match parse u with
        | Raise e =>
            feed_turn parse name extract mk ([], []) u
            = ([], [py "[ERROR] " ++ name ++ py " " ++ u
                    ++ py " の取得に失敗: " ++ exn_msg e])
        | Ok [] => feed_turn parse name extract mk ([], []) u = ([], [])
        | Ok _ => True
        end).
Proof.
  split_and!.
  - unfold fetch_bloomberg_articles. by rewrite foldl_feed_turn_units.
  - unfold fetch_guardian_articles. by rewrite foldl_feed_turn_units.
  - intros name extract mk u. unfold feed_turn, feed_try.
    by destruct (parse u) as [[|]|].
Qed.

(** X8: when an entry of a feed cannot be turned into an article (its
    structured date is out of range), the articles of the entries before it
    stay in the result, the entries after it are not looked at, and one
    line goes to stderr. *)
Theorem feed_keeps_entries_before_failure
    (parse : str -> result (list feed_entry)) name extract mk (u : str)
    (good : list feed_entry) (bad : feed_entry) (rest : list feed_entry)
    (arts : list Article) (e : exn) :
  parse u = Ok (good ++ bad :: rest) ->
  Forall2 (fun x a => mk (extract u) x = Ok a) good arts ->
  mk (extract u) bad = Raise e ->
  feed_turn parse name extract mk ([], []) u
  = (arts, [py "[ERROR] " ++ name ++ py " " ++ u
            ++ py " の取得に失敗: " ++ exn_msg e]).
Proof.
  intros Hparse Hgood Hbad. unfold feed_turn, feed_try. cbn [fst snd].
  rewrite Hparse, (append_each_stops _ _ _ _ _ _ Hgood Hbad). done.
Qed.

Lemma feed_keeps_entries_before_failure_witness :
  length (fetch_bloomberg_articles bad_date_parse).1 = 3%nat
  ∧ feed_turn bad_date_parse (py "Bloomberg") _extract_section_from_url
      bloomberg_article ([], [])
      (py "https://feeds.bloomberg.com/markets/news.rss")
    = ([{| source := py "Bloomberg"; section := py "markets";
           title := py "An entry"; abstract := py "A summary";
           url := py "https://b.example/1";
           published_date := py "2026-11-04T00:00:00" |}],
       [py "[ERROR] Bloomberg https://feeds.bloomberg.com/markets/news.rss の取得に失敗: datetime field is out of range"]).
Proof.
  split; [by vm_compute|].
  rewrite (feed_keeps_entries_before_failure bad_date_parse (py "Bloomberg")
             _extract_section_from_url bloomberg_article
             (py "https://feeds.bloomberg.com/markets/news.rss")
             [good_entry "https://b.example/1"] bad_date_entry
             [good_entry "https://b.example/3"]
             [{| source := py "Bloomberg"; section := py "markets";
                 title := py "An entry"; abstract := py "A summary";
                 url := py "https://b.example/1";
                 published_date := py "2026-11-04T00:00:00" |}]
             (Exn ValueError (py "datetime field is out of range"))).
  - by vm_compute.
  - reflexivity.
  - constructor; [by vm_compute|constructor].
  - by vm_compute.
Defined.

Lemma append_each_nyt_items sec (items : list json_item) its acc :
  mapM item_object items = Some its ->
  append_each (nyt_article sec) acc items
  = (acc ++ (nyt_item_article sec <$> its), None).
Proof.
  intros H%mapM_Some. rewrite append_each_acc.
  rewrite (append_each_all (nyt_article sec) items
             (nyt_item_article sec <$> its)); [done|].
  induction H as [|i it items its Hi _ IH]; [constructor|].
  rewrite fmap_cons. constructor; [|done].
  destruct i; [|done]. by injection Hi as ->.
Qed.

Lemma nyt_try_unfold requests_get key sec arts :
  nyt_try requests_get key sec arts
  = match requests_get (nyt_url sec) key with
    | Raise e => (arts, Some e)
    | Ok BodyNotObject =>
        (arts,
         Some (Exn AttributeError (py "object has no attribute 'get'")))
    | Ok (BodyObject ResultsAbsent) => (arts, None)
    | Ok (BodyObject ResultsNotIterable) =>
        (arts, Some (Exn TypeError (py "object is not iterable")))
    | Ok (BodyObject (ResultsIterable items)) =>
        append_each (nyt_article sec) arts items
    end.
Proof. vm_compute. reflexivity. Qed.

Lemma nyt_section_handled requests_get key arts errs sec :
  nyt_handled (requests_get (nyt_url sec) key) ->
  exists lines,
    nyt_section requests_get key (Ok (arts, errs)) sec
    = Ok (arts ++ nyt_response_articles sec (requests_get (nyt_url sec) key),
          errs ++ lines)
    ∧ length lines
      = (if nyt_failed (requests_get (nyt_url sec) key) then 1 else 0)%nat.
Proof.
  unfold nyt_handled, nyt_section, nyt_response_articles, nyt_failed.
  cbn [mbind result_bind]. rewrite nyt_try_unfold.
  destruct (requests_get (nyt_url sec) key) as [b|e].
  - intros [its Hits]. rewrite Hits. cbn [from_option id].
    exists []. rewrite !app_nil_r. split; [|done].
    destruct b as [[|items|]|]; try done.
    + simpl in Hits. injection Hits as <-. by rewrite app_nil_r.
    + by rewrite (append_each_nyt_items sec items its arts Hits).
  - unfold nyt_caught. rewrite app_nil_r.
    destruct (exn_class e); try done; intros _; eauto.
Qed.

(** X9: when every section's response is one the topics adapter handles
    (a [RequestException] or [JSONDecodeError], or a body that is an object
    whose "results" are objects), the adapter returns: its articles are, in
    section order, the articles of the sections that answered, a section
    that failed contributes none, and stderr gets one line per failed
    section. *)
Theorem fetch_nyt_articles_handled
    (requests_get : str -> str -> result json_body) (key : str) :
  (forall sec, sec ∈ NYT_SECTIONS ->
               nyt_handled (requests_get (nyt_url sec) key)) ->
  exists errs,
    fetch_nyt_articles requests_get key
    = Ok (mjoin ((fun sec => nyt_response_articles sec
                               (requests_get (nyt_url sec) key))
                   <$> NYT_SECTIONS),
          errs)
    ∧ length errs
      = length (filter (fun sec => nyt_failed (requests_get (nyt_url sec) key)
                                   = true)
                       NYT_SECTIONS).
Proof.
  intros H. unfold fetch_nyt_articles, NYT_SECTIONS in *. cbn [foldl].
  destruct (nyt_section_handled requests_get key [] [] (py "technology"))
    as (l1 & -> & E1); [apply H; left|].
  destruct (nyt_section_handled requests_get key
              ([] ++ nyt_response_articles (py "technology")
                       (requests_get (nyt_url (py "technology")) key))
              ([] ++ l1) (py "business"))
    as (l2 & -> & E2); [apply H; right; left|].
  destruct (nyt_section_handled requests_get key
              (([] ++ nyt_response_articles (py "technology")
                        (requests_get (nyt_url (py "technology")) key))
               ++ nyt_response_articles (py "business")
                    (requests_get (nyt_url (py "business")) key))
              (([] ++ l1) ++ l2) (py "world"))
    as (l3 & -> & E3); [apply H; right; right; left|].
  eexists. split.
  - f_equal. f_equal. rewrite !fmap_cons. cbn [fmap list_fmap mjoin list_join].
    rewrite app_nil_l, app_nil_r, <- app_assoc. done.
  - rewrite !length_app, E1, E2, E3, !filter_cons, filter_nil. simpl.
    repeat match goal with
           | |- context [nyt_failed ?r] => destruct (nyt_failed r)
           end; done.
Qed.

Lemma fetch_nyt_articles_handled_witness :
  exists errs,
    fetch_nyt_articles business_down_get (py "key")
    = Ok (mjoin ((fun sec => nyt_response_articles sec
                               (business_down_get (nyt_url sec) (py "key")))
                   <$> NYT_SECTIONS),
          errs)
    ∧ length errs
      = length (filter (fun sec => nyt_failed
                                     (business_down_get (nyt_url sec) (py "key"))
                                   = true)
                       NYT_SECTIONS).
Proof.
  apply (fetch_nyt_articles_handled business_down_get (py "key")).
  intros sec Hsec. unfold NYT_SECTIONS in Hsec.
  apply elem_of_cons in Hsec as [->|Hsec]; [by vm_compute; eauto|].
  apply elem_of_cons in Hsec as [->|Hsec]; [by vm_compute|].
  apply elem_of_cons in Hsec as [->|Hsec]; [by vm_compute; eauto|].
  by apply elem_of_nil in Hsec.
Defined.

Lemma foldl_feed_turn_Forall_in (P : Article -> Prop)
    parse name extract mk st (feeds : list str) :
  (forall u, u ∈ feeds -> forall x a, mk (extract u) x = Ok a -> P a) ->
  Forall P st.1 ->
  Forall P (foldl (feed_turn parse name extract mk) st feeds).1.
Proof.
  revert st. induction feeds as [|u feeds IH]; intros st Hmk Hst; [done|].
  cbn [foldl]. apply IH; [intros v Hv; apply Hmk; by right|].
  unfold feed_turn, feed_try.
  destruct (parse u) as [entries|e]; [|done].
  pose proof (append_each_Forall P (mk (extract u)) st.1 entries
                (Hmk u ltac:(left)) Hst) as H.
  by destruct (append_each _ _ _) as [? []].
Qed.

Lemma nyt_section_Forall (P : Article -> Prop) requests_get key st sec :
  (forall i a, nyt_article sec i = Ok a -> P a) ->
  match st with Ok (arts, _) => Forall P arts | Raise _ => True end ->
  match nyt_section requests_get key st sec with
  | Ok (arts, _) => Forall P arts
  | Raise _ => True
  end.
Proof.
  intros Hmk. destruct st as [[arts errs]|e]; [|done].
  intros Hst. unfold nyt_section, nyt_try. cbn [mbind result_bind].
  destruct (requests_get _ key) as [[[|items|]|]|e]; try done.
  - pose proof (append_each_Forall P (nyt_article sec) arts items Hmk Hst)
      as H.
    destruct (append_each _ _ _) as [arts' [e|]]; [|done].
    by destruct (exn_class e).
  - by destruct (exn_class e).
Qed.

(** X10: every article carries the tag of the adapter that built it and a
    section of that adapter's fixed set: "Bloomberg" with markets, technology
    or politics; "Guardian" with world, business or technology; "NYT" with
    one of [NYT_SECTIONS].  With the configured feeds no article gets the
    section "general". *)
Theorem adapters_tag_source_and_section :
  (forall parse,
      Forall (fun a => source a = py "Bloomberg"
                       ∧ section a ∈ [py "markets"; py "technology";
                                      py "politics"])
             (fetch_bloomberg_articles parse).1)
  ∧ (forall parse,
        Forall (fun a => source a = py "Guardian"
                         ∧ section a ∈ [py "world"; py "business";
                                        py "technology"])
               (fetch_guardian_articles parse).1)
  ∧ (forall requests_get key,
        match fetch_nyt_articles requests_get key with
        | Ok (arts, _) =>
            Forall (fun a => source a = py "NYT" ∧ section a ∈ NYT_SECTIONS)
                   arts
        | Raise _ => True
        end).
Proof.
  split_and!.
  - intros parse. unfold fetch_bloomberg_articles.
    apply foldl_feed_turn_Forall_in; [|constructor].
    intros u Hu x a. unfold bloomberg_article.
    destruct (entry_date x); [|done]. cbn [mbind result_bind].
    intros [= <-]. cbn [source section]. split; [done|].
    unfold BLOOMBERG_FEEDS in Hu.
    apply elem_of_cons in Hu as [->|Hu]; [left|].
    apply elem_of_cons in Hu as [->|Hu]; [right; left|].
    apply elem_of_cons in Hu as [->|Hu]; [right; right; left|].
    by apply elem_of_nil in Hu.
  - intros parse. unfold fetch_guardian_articles.
    apply foldl_feed_turn_Forall_in; [|constructor].
    intros u Hu x a. unfold guardian_article.
    destruct (entry_date x); [|done]. cbn [mbind result_bind].
    intros [= <-]. cbn [source section]. split; [done|].
    unfold GUARDIAN_FEEDS in Hu.
    apply elem_of_cons in Hu as [->|Hu]; [left|].
    apply elem_of_cons in Hu as [->|Hu]; [right; left|].
    apply elem_of_cons in Hu as [->|Hu]; [right; right; left|].
    by apply elem_of_nil in Hu.
  - intros requests_get key. unfold fetch_nyt_articles, NYT_SECTIONS.
    cbn [foldl].
    assert (Hmk : forall sec, sec ∈ [py "technology"; py "business"; py "world"] ->
              forall i a, nyt_article sec i = Ok a ->
                source a = py "NYT"
                ∧ section a ∈ [py "technology"; py "business"; py "world"]).
    { intros sec Hsec [it|] a; [|done]. by intros [= <-]. }
    apply nyt_section_Forall; [apply Hmk; right; right; left|].
    apply nyt_section_Forall; [apply Hmk; right; left|].
    apply nyt_section_Forall; [apply Hmk; left|].
    constructor.
Qed.

Lemma digit_range (n : Z) : (48 ≤ digit n ≤ 57)%N.
Proof.
  unfold digit. pose proof (Z.mod_pos_bound n 10 ltac:(lia)). lia.
Qed.

(** X11: the date an adapter writes from a structured feed date has the
    19 characters of YYYY-MM-DDTHH:MM:SS, digits apart from the separators,
    and no "Z": the filter's replacement of "Z" leaves it as it is, and it
    carries no offset. *)
Theorem structured_date_is_plain_iso (t : struct_time) (s : str) :
  struct_time_isoformat t = Ok s ->
  length s = 19%nat
  ∧ Forall (fun c => (48 ≤ c ≤ 57)%N ∨ c ∈ [45; 84; 58]%N) s
  ∧ str_replace1 90 (py "+00:00") s = s.
Proof.
  unfold struct_time_isoformat. destruct (_ && _); [|done].
  intros [= <-].
  assert (HF : Forall (fun c => (48 ≤ c ≤ 57)%N ∨ c ∈ [45; 84; 58]%N)
                 (pad4 (tm_year t) ++ py "-" ++ pad2 (tm_mon t) ++ py "-"
                  ++ pad2 (tm_mday t) ++ py "T" ++ pad2 (tm_hour t) ++ py ":"
                  ++ pad2 (tm_min t) ++ py ":" ++ pad2 (tm_sec t))).
  { unfold pad4, pad2. change (py "-") with [45%N].
    change (py "T") with [84%N]. change (py ":") with [58%N]. simpl.
    repeat (constructor;
            [first [ left; apply digit_range
                   | right; rewrite !elem_of_cons; tauto ]|]).
    constructor. }
  split_and!; [done|exact HF|].
  apply str_replace1_absent. intros Hin.
  rewrite Forall_forall in HF. destruct (HF _ Hin) as [H|H]; [lia|].
  rewrite !elem_of_cons in H. destruct H as [H|[H|[H|H]]]; try done.
  by apply elem_of_nil in H.
Qed.

Lemma structured_date_is_plain_iso_witness :
  length (py "2026-11-04T00:00:00") = 19%nat
  ∧ Forall (fun c => (48 ≤ c ≤ 57)%N ∨ c ∈ [45; 84; 58]%N)
      (py "2026-11-04T00:00:00")
  ∧ str_replace1 90 (py "+00:00") (py "2026-11-04T00:00:00")
    = py "2026-11-04T00:00:00".
Proof.
  apply (structured_date_is_plain_iso (mkStructTime 2026 11 4 0 0 0)).
  by vm_compute.
Defined.

(** X12: whenever [main] writes a document, the API key was set, the
    path is the chosen one, [total_count] is the number of articles in the
    document, and the articles have non-empty, pairwise distinct urls. *)
Theorem main_document_invariant
    requests_get feedparser_parse fromisoformat isoformat
    (NYT_API_KEY : option str) (now_filter now_output : Z) open_w (c : cli)
    (stderr : list str) (path : str) (doc : output_data) :
  main requests_get feedparser_parse fromisoformat isoformat NYT_API_KEY
       now_filter now_output open_w c
  = (stderr, Dumped path doc) ->
  (exists key, NYT_API_KEY = Some key ∧ key ≠ [])
  ∧ path = default DEFAULT_OUTPUT_PATH (cli_output c)
  ∧ total_count doc = py_len (articles doc)
  ∧ Forall (fun a => url a ≠ []) (articles doc)
  ∧ NoDup (url <$> articles doc).
Proof.
  unfold main, parse_args. cbv zeta. cbn [from_option id output hours].
  destruct (truthy (default [] NYT_API_KEY)) eqn:Hkey; cbn [negb]; [|done].
  destruct (fetch_nyt_articles _ _) as [[nyt err1]|e]; [|done].
  destruct (fetch_bloomberg_articles _) as [b err2].
  destruct (fetch_guardian_articles _) as [g err3].
  destruct (filter_recent_articles _ _ _ _) as [filtered|e]; [|done].
  destruct (open_w _) as [[]|e]; [|done].
  intros [= _ <- <-]. cbn [total_count articles].
  split_and!; [|done..| |].
  - destruct NYT_API_KEY as [key|]; [|done].
    exists key. split; [done|]. by apply truthy_true.
  - apply deduplicate_articles_urls_nonempty.
  - rewrite deduplicate_articles_unfold. apply dedup_from_NoDup.
Qed.

Lemma main_document_invariant_witness :
  (exists key, Some (py "key") = Some key ∧ key ≠ [])
  ∧ py "/data/articles.json"
    = default DEFAULT_OUTPUT_PATH (cli_output mixed_cli)
  ∧ total_count mixed_document = py_len (articles mixed_document)
  ∧ Forall (fun a => url a ≠ []) (articles mixed_document)
  ∧ NoDup (url <$> articles mixed_document).
Proof.
  apply (main_document_invariant mixed_get mixed_parse sample_fromisoformat
           sample_isoformat (Some (py "key")) sample_now sample_now
           always_open mixed_cli mixed_stderr (py "/data/articles.json")
           mixed_document).
  vm_compute. reflexivity.
Defined.

End FetchArticlesFacts.

(** * Properties of post_to_slack.py *)

Module PostToSlackFacts.

Import PostToSlack.

Lemma truncation_notice_length : py_len TRUNCATION_NOTICE = 25.
Proof. reflexivity. Qed.

Lemma cap_message_length (message : str) :
  py_len (cap_message message) ≤ MAX_LENGTH + 25.
Proof.
  unfold cap_message, MAX_LENGTH.
  destruct (39000 <? py_len message) eqn:E.
  - unfold str_prefix, py_len. rewrite length_app, length_take.
    change (length TRUNCATION_NOTICE) with 25%nat. lia.
  - apply Z.ltb_ge in E. lia.
Qed.

Lemma post_to_slack_payload requests_post webhook_url (message : str) :
  (post_to_slack requests_post webhook_url message).1.1
  = {| text := message |}.
Proof.
  unfold post_to_slack.
  destruct (requests_post _ _) as [[]|e]; [done|].
  by destruct (exn_class e).
Qed.

(** C9: the cap is missing on the [--error] path.  [main] leaves through
    [post_error_to_slack] before the length check, so an error notice is
    posted as it is: with 40000 characters of error text the posted text
    has 40049 characters, more than the cap and its notice together. *)
Lemma error_notice_is_not_capped :
  posted (main accepting_post sample_webhook no_file
               (mkCli None None (Some long_text)))
  = [{| text := error_message_text long_text |}]
  ∧ py_len (error_message_text long_text) = 40049
  ∧ MAX_LENGTH + py_len TRUNCATION_NOTICE < py_len (error_message_text long_text).
Proof. repeat split; vm_compute; reflexivity. Qed.

(** The same 40000 characters given as the message are posted once, cut
    to 39000 characters and followed by the notice. *)
Lemma long_message_is_cut :
  py_len long_text = 40000
  ∧ py_len (cap_message long_text) = 39025
  ∧ length (posted (main accepting_post sample_webhook no_file
                         (mkCli None (Some long_text) None))) = 1%nat.
Proof. repeat split; vm_compute; reflexivity. Qed.

(** * Further properties of post_to_slack.py *)

(** X22: every request posts the payload whose [text] is the message
    handed to [post_to_slack].  Without [--error], a run posts at most one
    message: the chosen one (the [--message] text, else the text of the
    input file) when it has at most 39000 characters, and otherwise its
    first 39000 characters followed by the truncation notice, 39025
    characters in all.  With [--error] and a webhook, the one message is
    the error text inside the error template, whatever its length. *)
Theorem posted_message_is_capped
    requests_post (webhook : option str) read_file (c : cli) :
  (truthy (default [] (cli_error c)) = false ->
   forall p, p ∈ posted (main requests_post webhook read_file c) ->
     exists message,
       (if truthy (default [] (cli_message c))
        then cli_message c = Some message
        else read_file (default DEFAULT_INPUT_PATH (cli_input c))
             = Some message)
       ∧ posted (main requests_post webhook read_file c) = [p]
       ∧ text p = (if MAX_LENGTH <? py_len message
                   then str_prefix MAX_LENGTH message ++ TRUNCATION_NOTICE
                   else message)
       ∧ py_len (text p) ≤ MAX_LENGTH + 25)
  ∧ (truthy (default [] (cli_error c)) = true ->
     truthy (default [] webhook) = true ->
     posted (main requests_post webhook read_file c)
     = [{| text := error_message_text (default [] (cli_error c)) |}]).
Proof.
  split.
  - intros Herr p. unfold main, parse_args. cbv zeta.
    cbn [input message error].
    destruct (truthy (default [] webhook)); cbn [negb posted];
      [|by intros ?%elem_of_nil].
    rewrite Herr.
    destruct (truthy (default [] (cli_message c))) eqn:Hm.
    + destruct (cli_message c) as [m|] eqn:Hc; [|done]. cbn [from_option id].
      destruct (negb (truthy (str_strip m))); cbn [posted];
        [by intros ?%elem_of_nil|].
      pose proof (post_to_slack_payload requests_post (default [] webhook)
                    (cap_message m)) as Hp.
      destruct (post_to_slack _ _ _) as [[p' err] success].
      cbn [fst posted] in *. intros ->%list_elem_of_singleton. subst p'.
      exists m. split_and!; [done..|]. apply cap_message_length.
    + destruct (read_file _) as [m|] eqn:Hf; cbn [posted];
        [|by intros ?%elem_of_nil].
      destruct (negb (truthy (str_strip m))); cbn [posted];
        [by intros ?%elem_of_nil|].
      pose proof (post_to_slack_payload requests_post (default [] webhook)
                    (cap_message m)) as Hp.
      destruct (post_to_slack _ _ _) as [[p' err] success].
      cbn [fst posted] in *. intros ->%list_elem_of_singleton. subst p'.
      exists m. split_and!; [done..|]. apply cap_message_length.
  - intros Herr Hhook. unfold main, parse_args. cbv zeta.
    cbn [input message error]. rewrite Hhook, Herr. cbn [negb].
    unfold post_error_to_slack.
    pose proof (post_to_slack_payload requests_post (default [] webhook)
                  (error_message_text (default [] (cli_error c)))) as Hp.
    destruct (post_to_slack _ _ _) as [[p' err] success].
    cbn [fst posted] in *. by subst p'.
Qed.

Lemma posted_message_is_capped_witness :
  exists p,
    posted (main accepting_post sample_webhook no_file
                 (mkCli None (Some long_text) None)) = [p]
    ∧ text p = str_prefix MAX_LENGTH long_text ++ TRUNCATION_NOTICE
    ∧ py_len long_text = 40000
    ∧ py_len (text p) = 39025.
Proof.
  assert (Hlen : length (posted (main accepting_post sample_webhook no_file
                           (mkCli None (Some long_text) None))) = 1%nat)
    by (vm_compute; reflexivity).
  destruct (posted (main accepting_post sample_webhook no_file
                      (mkCli None (Some long_text) None)))
    as [|p [|? ?]] eqn:Hposted; [discriminate| |discriminate].
  clear Hlen.
  assert (Herr : truthy (default [] (cli_error
                   (mkCli None (Some long_text) None))) = false)
    by reflexivity.
  assert (Hin : p ∈ posted (main accepting_post sample_webhook no_file
                              (mkCli None (Some long_text) None))).
  { rewrite Hposted. left. }
  destruct (proj1 (posted_message_is_capped accepting_post sample_webhook
                     no_file (mkCli None (Some long_text) None))
              Herr p Hin)
    as (message & Hmsg & _ & Htext & _).
  assert (Ht : truthy (default [] (cli_message
                 (mkCli None (Some long_text) None))) = true)
    by (vm_compute; reflexivity).
  rewrite Ht in Hmsg. cbn [cli_message] in Hmsg.
  injection Hmsg as <-.
  assert (Hlong : (MAX_LENGTH <? py_len long_text) = true)
    by (vm_compute; reflexivity).
  rewrite Hlong in Htext.
  exists p. split; [reflexivity|]. split; [exact Htext|].
  split; [vm_compute; reflexivity|].
  rewrite Htext. vm_compute. reflexivity.
Defined.

Lemma str_lstrip_head (s : str) c t :
  str_lstrip s = c :: t -> py_isspace c = false ∧ c ∈ s.
Proof.
  induction s as [|x s IH]; [done|]. simpl.
  destruct (py_isspace x) eqn:E.
  - intros [? ?]%IH. split; [done|by right].
  - intros [= -> ->]. split; [done|left].
Qed.

Lemma str_lstrip_nonblank (s : str) : nonblank s -> nonblank (str_lstrip s).
Proof.
  intros (c & Hc & Hs). induction s as [|x s IH]; [by apply elem_of_nil in Hc|].
  simpl. destruct (py_isspace x) eqn:E.
  - apply IH. apply elem_of_cons in Hc as [->|Hc]; [congruence|done].
  - by exists c.
Qed.

Lemma nonblank_reverse (s : str) : nonblank s -> nonblank (reverse s).
Proof. intros (c & Hc & Hs). exists c. by rewrite elem_of_reverse. Qed.

(** [s.strip()] is non-empty exactly when [s] has a character that is not
    white space. *)
Lemma str_strip_nonempty (s : str) : str_strip s ≠ [] <-> nonblank s.
Proof.
  unfold str_strip. split.
  - intros H.
    destruct (str_lstrip (reverse (str_lstrip s))) as [|c t] eqn:E; [done|].
    apply str_lstrip_head in E as [Hc Hin].
    rewrite elem_of_reverse in Hin.
    exists c. split; [|done].
    clear -Hin. induction s as [|x s IH]; [by apply elem_of_nil in Hin|].
    revert Hin. simpl. destruct (py_isspace x); intros Hin;
      [right; by apply IH|done].
  - intros H.
    apply str_lstrip_nonblank, nonblank_reverse, str_lstrip_nonblank,
      nonblank_reverse in H.
    destruct H as (c & Hc & _). intros E. rewrite E in Hc.
    by apply elem_of_nil in Hc.
Qed.

Lemma truncation_notice_nonblank : nonblank TRUNCATION_NOTICE.
Proof. exists 95%N. split; [vm_compute|done]. do 2 right. left. Qed.

Lemma cap_message_nonblank (message : str) :
  nonblank message -> nonblank (cap_message message).
Proof.
  intros H. unfold cap_message. destruct (MAX_LENGTH <? _); [|done].
  destruct truncation_notice_nonblank as (c & Hc & Hs).
  exists c. split; [|done]. apply elem_of_app. by right.
Qed.

Lemma error_message_text_nonblank (e : str) : nonblank (error_message_text e).
Proof. exists 58%N. split; [vm_compute|done]. left. Qed.

(** X13: cutting is idempotent and keeps the first 39000 characters: a
    message that was cut already is not cut a second time, and the posted
    text starts with the same 39000 characters as the message. *)
Theorem cap_message_idempotent (message : str) :
  cap_message (cap_message message) = cap_message message
  ∧ str_prefix MAX_LENGTH (cap_message message)
    = str_prefix MAX_LENGTH message.
Proof.
  unfold cap_message, str_prefix, py_len.
  destruct (MAX_LENGTH <? Z.of_nat (length message)) eqn:E.
  - apply Z.ltb_lt in E.
    assert (Hlen : length (take (Z.to_nat MAX_LENGTH) message)
                   = Z.to_nat MAX_LENGTH).
    { rewrite length_take. unfold MAX_LENGTH in *. lia. }
    assert (Hcut : (MAX_LENGTH
                    <? Z.of_nat (length (take (Z.to_nat MAX_LENGTH) message
                                         ++ TRUNCATION_NOTICE))) = true).
    { apply Z.ltb_lt. rewrite length_app, Hlen.
      change (length TRUNCATION_NOTICE) with 25%nat.
      unfold MAX_LENGTH. lia. }
    rewrite Hcut, take_app_length' by done. done.
  - by rewrite E.
Qed.

(** X14: a run posts at most one payload, and never one whose text is
    empty or white space only. *)
Theorem main_posts_once_and_never_blank
    requests_post (webhook : option str) read_file (c : cli) :
  (length (posted (main requests_post webhook read_file c)) ≤ 1)%nat
  ∧ Forall (fun p => str_strip (text p) ≠ [])
           (posted (main requests_post webhook read_file c)).
Proof.
  unfold main, parse_args. cbv zeta. cbn [input message error].
  destruct (truthy (default [] webhook)); cbn [negb];
    [|split; [simpl; lia|constructor]].
  destruct (truthy (default [] (cli_error c))).
  - unfold post_error_to_slack.
    pose proof (post_to_slack_payload requests_post (default [] webhook)
                  (error_message_text (default [] (cli_error c)))) as Hp.
    destruct (post_to_slack _ _ _) as [[p err] success].
    cbn [fst posted] in *. subst p. split; [done|].
    constructor; [|constructor]. cbn [text].
    apply str_strip_nonempty, error_message_text_nonblank.
  - destruct (if truthy (default [] (cli_message c))
              then Some (default [] (cli_message c))
              else read_file (default DEFAULT_INPUT_PATH (cli_input c)))
      as [m|]; [|split; [simpl; lia|constructor]].
    destruct (truthy (str_strip m)) eqn:Hm; cbn [negb];
      [|split; [simpl; lia|constructor]].
    pose proof (post_to_slack_payload requests_post (default [] webhook)
                  (cap_message m)) as Hp.
    destruct (post_to_slack _ _ _) as [[p err] success].
    cbn [fst posted] in *. subst p. split; [done|].
    constructor; [|constructor]. cbn [text].
    apply str_strip_nonempty, cap_message_nonblank, str_strip_nonempty.
    intros E. rewrite E in Hm. done.
Qed.

Lemma post_to_slack_true requests_post webhook_url (message : str) :
  (post_to_slack requests_post webhook_url message).2 = Ok true ->
  requests_post webhook_url {| text := message |} = Ok tt.
Proof.
  unfold post_to_slack.
  destruct (requests_post _ _) as [[]|e]; [done|].
  by destruct (exn_class e).
Qed.

(** X15: a run ends without an exit code only after the curated message
    was posted and the webhook accepted it; a run ends with exit code 0
    only when the message was blank and nothing was posted, or when the
    webhook accepted the error notice. *)
Theorem main_success_means_accepted
    requests_post (webhook : option str) read_file (c : cli) :
  (ending (main requests_post webhook read_file c) = Returned ->
   truthy (default [] (cli_error c)) = false
   ∧ exists p, posted (main requests_post webhook read_file c) = [p]
               ∧ requests_post (default [] webhook) p = Ok tt)
  ∧ (ending (main requests_post webhook read_file c) = SysExit 0 ->
     posted (main requests_post webhook read_file c) = []
     ∨ (truthy (default [] (cli_error c)) = true
        ∧ exists p, posted (main requests_post webhook read_file c) = [p]
                    ∧ requests_post (default [] webhook) p = Ok tt)).
Proof.
  unfold main, parse_args. cbv zeta. cbn [input message error].
  destruct (truthy (default [] webhook)); cbn [negb];
    [|split; [done|by left]].
  destruct (truthy (default [] (cli_error c))).
  - unfold post_error_to_slack.
    pose proof (post_to_slack_payload requests_post (default [] webhook)
                  (error_message_text (default [] (cli_error c)))) as Hp.
    pose proof (post_to_slack_true requests_post (default [] webhook)
                  (error_message_text (default [] (cli_error c)))) as Ht.
    destruct (post_to_slack _ _ _) as [[p err] success].
    cbn [fst snd posted ending] in *. subst p.
    split; [by destruct success as [[]|]|].
    destruct success as [[]|]; [|done..].
    intros _. right. split; [done|]. eexists. split; [done|by apply Ht].
  - destruct (if truthy (default [] (cli_message c))
              then Some (default [] (cli_message c))
              else read_file (default DEFAULT_INPUT_PATH (cli_input c)))
      as [m|]; [|split; [done|by left]].
    destruct (negb (truthy (str_strip m))); [split; [done|by left]|].
    pose proof (post_to_slack_payload requests_post (default [] webhook)
                  (cap_message m)) as Hp.
    pose proof (post_to_slack_true requests_post (default [] webhook)
                  (cap_message m)) as Ht.
    destruct (post_to_slack _ _ _) as [[p err] success].
    cbn [fst snd posted ending] in *. subst p.
    split; [|by destruct success as [[]|]].
    destruct success as [[]|]; [|done..].
    intros _. split; [done|]. eexists. split; [done|by apply Ht].
Qed.

Lemma main_success_means_accepted_witness :
  truthy (default [] (cli_error
            (mkCli None (Some (py "Top stories of the day")) None))) = false
  ∧ exists p,
      posted (main accepting_post sample_webhook no_file
                (mkCli None (Some (py "Top stories of the day")) None)) = [p]
      ∧ accepting_post (default [] sample_webhook) p = Ok tt.
Proof.
  apply (proj1 (main_success_means_accepted accepting_post sample_webhook
                  no_file
                  (mkCli None (Some (py "Top stories of the day")) None))).
  reflexivity.
Defined.

End PostToSlackFacts.

(** * Properties of select_articles.py *)

Module SelectArticlesFacts.

Import SelectArticles.

Lemma format_loop_objects (i : nat) (lines : list str)
    (ds : list article_dict) :
  format_loop i lines (ArticleObject <$> ds)
  = Ok (lines ++ mjoin (imap (fun k d => article_lines (i + k) d) ds)).
Proof.
  revert i lines. induction ds as [|d ds IH]; intros i lines.
  - simpl. by rewrite app_nil_r.
  - rewrite fmap_cons. cbn [format_loop imap mjoin list_join].
    rewrite IH, Nat.add_0_r, <- app_assoc. do 4 f_equal.
    apply imap_ext. intros k x _. simpl. f_equal. lia.
Qed.

Lemma format_loop_ok (i : nat) (lines : list str)
    (items : list json_article) out :
  format_loop i lines items = Ok out ->
  exists ds, items = ArticleObject <$> ds.
Proof.
  revert i lines. induction items as [|[d|] items IH]; intros i lines.
  - intros _. by exists [].
  - cbn [format_loop]. intros [ds ->]%IH. by exists (d :: ds).
  - done.
Qed.

Lemma format_loop_raises (i : nat) (lines : list str)
    (items : list json_article) e :
  format_loop i lines items = Raise e -> exn_class e = AttributeError.
Proof.
  revert i lines. induction items as [|[d|] items IH]; intros i lines.
  - done.
  - cbn [format_loop]. apply IH.
  - cbn [format_loop]. by intros [= <-].
Qed.

Lemma format_loop_stops (i : nat) (lines : list str)
    (ds : list article_dict) (rest : list json_article) :
  exists e,
    format_loop i lines ((ArticleObject <$> ds) ++ ArticleNotObject :: rest)
    = Raise e
    ∧ exn_class e = AttributeError.
Proof.
  revert i lines. induction ds as [|d ds IH]; intros i lines.
  - cbn [fmap list_fmap app format_loop]. eauto.
  - rewrite fmap_cons. cbn [app format_loop]. apply IH.
Qed.

(** X16: for a document whose articles are objects, the prompt text is
    the heading with the number of articles followed by the seven lines of
    each article, numbered from 1 in input order, joined by line feeds. *)
Theorem format_numbers_articles_in_order (ds : list article_dict) :
  format_articles_for_prompt (DataObject (Some (Sized (ArticleObject <$> ds))))
  = Ok (str_join [LF]
          (heading_line (length ds)
             :: mjoin (imap (fun k d => article_lines (S k) d) ds))).
Proof.
  unfold format_articles_for_prompt, get_articles, sized_items.
  cbn [mbind result_bind from_option id].
  by rewrite format_loop_objects, length_fmap.
Qed.

(** X17: [format_articles_for_prompt] returns a text exactly when the
    document is an object whose "articles" member is missing or holds
    objects only.  Otherwise it raises, and only [AttributeError] or
    [TypeError]: [AttributeError] for a document that is not an object and
    for an element that is not an object, wherever it stands, also after
    well-formed elements; [TypeError] for an "articles" member without a
    length. *)
Theorem format_returns_iff_well_shaped (data : articles_data) :
  ((exists text, format_articles_for_prompt data = Ok text)
   <-> (exists m ds, data = DataObject m
                     ∧ default (Sized []) m = Sized (ArticleObject <$> ds)))
  ∧ match format_articles_for_prompt data with
    | Ok _ => True
    | Raise e => exn_class e = AttributeError ∨ exn_class e = TypeError
    end
  ∧ (forall (ds : list article_dict) (rest : list json_article),
        exists e,
          format_articles_for_prompt
            (DataObject
               (Some (Sized ((ArticleObject <$> ds)
                             ++ ArticleNotObject :: rest))))
          = Raise e
          ∧ exn_class e = AttributeError)
  ∧ (exists e, format_articles_for_prompt DataNotObject = Raise e
               ∧ exn_class e = AttributeError)
  ∧ (exists e, format_articles_for_prompt (DataObject (Some NoLen)) = Raise e
               ∧ exn_class e = TypeError).
Proof.
  split_and!.
  - split.
    + intros [text H]. unfold format_articles_for_prompt in H.
      destruct data as [m|]; [|done].
      cbn [get_articles mbind result_bind] in H.
      destruct (default (Sized []) m) as [items|] eqn:E; [|done].
      cbn [sized_items mbind result_bind] in H.
      destruct (format_loop 1 [heading_line (length items)] items)
        as [lines|e] eqn:El; [|done].
      apply format_loop_ok in El as [ds ->]. by exists m, ds.
    + intros (m & ds & -> & E).
      unfold format_articles_for_prompt, get_articles.
      cbn [mbind result_bind]. rewrite E.
      cbn [sized_items mbind result_bind].
      rewrite format_loop_objects. cbn [mbind result_bind]. eauto.
  - unfold format_articles_for_prompt.
    destruct data as [m|]; cbn [get_articles mbind result_bind exn_class];
      [|by left].
    destruct (default (Sized []) m) as [items|];
      cbn [sized_items mbind result_bind exn_class]; [|by right].
    destruct (format_loop 1 [heading_line (length items)] items)
      as [lines|e] eqn:El; cbn [mbind result_bind]; [done|].
    left. by eapply format_loop_raises.
  - intros ds rest. unfold format_articles_for_prompt.
    cbn [get_articles sized_items mbind result_bind from_option id].
    destruct (format_loop_stops 1
                [heading_line (length ((ArticleObject <$> ds)
                                       ++ ArticleNotObject :: rest))]
                ds rest) as (e & -> & He).
    cbn [mbind result_bind]. eauto.
  - unfold format_articles_for_prompt.
    cbn [get_articles mbind result_bind]. eauto.
  - unfold format_articles_for_prompt.
    cbn [get_articles sized_items mbind result_bind from_option id]. eauto.
Qed.

Lemma foldl_response_text (acc : str) (blocks : list content_block) :
  foldl (fun result block =>
           if bool_decide (block_type block = py "text")
           then result ++ block_text block
           else result)
        acc blocks
  = acc ++ mjoin (block_text
                    <$> filter (fun b => block_type b = py "text") blocks).
Proof.
  revert acc. induction blocks as [|b blocks IH]; intros acc.
  - simpl. by rewrite app_nil_r.
  - cbn [foldl]. rewrite IH, filter_cons.
    case_bool_decide as Hb.
    + rewrite decide_True by done. rewrite fmap_cons.
      cbn [mjoin list_join]. by rewrite <- app_assoc.
    + by rewrite decide_False by done.
Qed.

(** X18: the selection is the text of the reply's blocks of type "text",
    in order, put together; blocks of another type are left out. *)
Theorem response_text_keeps_text_blocks (blocks : list content_block) :
  response_text blocks
  = mjoin (block_text <$> filter (fun b => block_type b = py "text") blocks).
Proof. unfold response_text. by rewrite foldl_response_text. Qed.

Section MainFacts.

Variable messages_create : str -> request -> api_outcome.
Variable today DEFAULT_PROMPT_PATH : str.
Variable ANTHROPIC_API_KEY : option str.
Variable path_exists : str -> bool.
Variable load_articles : str -> result articles_data.
Variable load_prompt : str -> result str.
Variable write_file : str -> str -> result unit.

Lemma select_requests (data : articles_data) (prompt_template key : str) :
  match select_articles_with_claude messages_create today data
          prompt_template key with
  | (reqs, res) =>
      (reqs = [] ∧ exists e, res = inl (FailedWith e))
      ∨ (exists req text,
            reqs = [req]
            ∧ req = {| req_model := MODEL; req_max_tokens := MAX_TOKENS;
                       req_system := prompt_template;
                       req_messages := [{| role := py "user";
                                           content := text |}] |}
            ∧ match res with
              | inr result =>
                  exists blocks, messages_create key req = ApiReply blocks
                                 ∧ result = response_text blocks
              | inl _ => True
              end)
  end.
Proof.
  unfold select_articles_with_claude.
  destruct (format_articles_for_prompt data) as [text|e]; [|left; eauto].
  destruct (messages_create key _) as [blocks| |] eqn:E;
    right; do 2 eexists; split_and!; try done; eauto.
Qed.

(** X19: with no article to select from (the "articles" member is missing
    or empty), [main] sends no request, writes the no-articles notice to the
    output path, prints one warning and exits with 0. *)
Theorem main_without_articles (c : cli) (data : articles_data) :
  truthy (default [] ANTHROPIC_API_KEY) = true ->
  path_exists (default DEFAULT_INPUT_PATH (cli_input c)) = true ->
  path_exists (default DEFAULT_PROMPT_PATH (cli_prompt c)) = true ->
  load_articles (default DEFAULT_INPUT_PATH (cli_input c)) = Ok data ->
  data = DataObject None ∨ data = DataObject (Some (Sized [])) ->
  write_file (default DEFAULT_OUTPUT_PATH (cli_output c)) NO_ARTICLES_NOTICE
  = Ok tt ->
  main messages_create today DEFAULT_PROMPT_PATH ANTHROPIC_API_KEY
       path_exists load_articles load_prompt write_file c
  = {| requests := [];
       written := [(default DEFAULT_OUTPUT_PATH (cli_output c),
                    NO_ARTICLES_NOTICE)];
       stderr := [py "[WARNING] 記事が0件です。選定をスキップします。"];
       ending := SysExit 0 |}.
Proof.
  intros Hkey Hin Hprompt Hload Hdata Hwrite.
  unfold main, parse_args. cbv zeta. cbn [input output prompt].
  rewrite Hkey, Hin, Hprompt, Hload. cbn [negb].
  destruct Hdata as [-> | ->]; cbn [get_articles sized_items mbind
    result_bind from_option id length]; rewrite bool_decide_eq_true_2 by done;
    by rewrite Hwrite.
Qed.

(** X20: a run sends at most one request and writes at most one file.  A
    request names [MODEL] and [MAX_TOKENS] and holds one message of the
    role "user".  A file is written at the output path only, and its text
    is the no-articles notice (then no request was sent) or the text of the
    reply to the request of this run. *)
Theorem main_requests_and_writes (c : cli) :
  let r := main messages_create today DEFAULT_PROMPT_PATH ANTHROPIC_API_KEY
                path_exists load_articles load_prompt write_file c in
  (length (requests r) ≤ 1)%nat
  ∧ (length (written r) ≤ 1)%nat
  ∧ Forall (fun req => req_model req = MODEL
                       ∧ req_max_tokens req = MAX_TOKENS
                       ∧ exists text,
                           req_messages req
                           = [{| role := py "user"; content := text |}])
           (requests r)
  ∧ Forall (fun w =>
              w.1 = default DEFAULT_OUTPUT_PATH (cli_output c)
              ∧ ((w.2 = NO_ARTICLES_NOTICE ∧ requests r = [])
                 ∨ exists req blocks,
                     requests r = [req]
                     ∧ messages_create (default [] ANTHROPIC_API_KEY) req
                       = ApiReply blocks
                     ∧ w.2 = response_text blocks))
           (written r).
Proof.
  cbv zeta. unfold main, parse_args. cbv zeta. cbn [input output prompt].
  destruct (truthy _); cbn [negb];
    [|split_and!; [simpl; lia..|constructor|constructor]].
  destruct (path_exists _); cbn [negb];
    [|split_and!; [simpl; lia..|constructor|constructor]].
  destruct (path_exists _); cbn [negb];
    [|split_and!; [simpl; lia..|constructor|constructor]].
  destruct (load_articles _) as [data|e];
    [|split_and!; [simpl; lia..|constructor|constructor]].
  destruct (mbind _ _) as [items|e];
    [|split_and!; [simpl; lia..|constructor|constructor]].
  destruct (bool_decide _).
  - destruct (write_file _ _);
      [|split_and!; [simpl; lia..|constructor|constructor]].
    cbn [requests written]. split_and!; [simpl; lia..|constructor|].
    constructor; [|constructor]. split; [done|]. by left.
  - destruct (load_prompt _) as [prompt_template|e];
      [|split_and!; [simpl; lia..|constructor|constructor]].
    pose proof (select_requests data prompt_template
                  (default [] ANTHROPIC_API_KEY)) as Hsel.
    destruct (select_articles_with_claude _ _ _ _ _) as [reqs [f|result]].
    + cbn [failed requests written].
      destruct Hsel as [[-> _]|(req & text & -> & -> & _)];
        split_and!; try (simpl; lia); try constructor; try constructor;
        cbn [req_model req_max_tokens req_messages]; eauto.
    + destruct Hsel as [[_ [e He]]|(req & text & -> & Hreq & blocks & Hb & ->)];
        [done|].
      destruct (write_file _ _); cbn [failed requests written];
        (split_and!; [simpl; lia..| |]).
      * constructor; [|constructor]. subst req.
        cbn [req_model req_max_tokens req_messages]. eauto.
      * constructor; [|constructor]. split; [done|]. right. eauto.
      * constructor; [|constructor]. subst req.
        cbn [req_model req_max_tokens req_messages]. eauto.
      * constructor.
Qed.


End MainFacts.

Lemma main_without_articles_witness :
  main sample_reply (py "2026-11-04") (py "/app/prompt.txt") (Some (py "key"))
       every_path empty_document sample_prompt accepting_write
       (mkCli None None None)
  = {| requests := [];
       written := [(default DEFAULT_OUTPUT_PATH
                      (cli_output (mkCli None None None)),
                    NO_ARTICLES_NOTICE)];
       stderr := [py "[WARNING] 記事が0件です。選定をスキップします。"];
       ending := SysExit 0 |}.
Proof.
  apply (main_without_articles sample_reply (py "2026-11-04")
           (py "/app/prompt.txt") (Some (py "key")) every_path empty_document
           sample_prompt accepting_write (mkCli None None None)
           (DataObject (Some (Sized [])))).
  - by vm_compute.
  - reflexivity.
  - reflexivity.
  - reflexivity.
  - by right.
  - reflexivity.
Defined.


End SelectArticlesFacts.
